(** * diffdrive_mini_ocebot: the DiffBotSystemHardware component

    A shallow embedding of [hardware/diffbot_system.cpp]: the lifecycle
    callbacks [on_init], [on_configure], [on_activate], [on_deactivate],
    [on_shutdown] and the periodic [read] / [write] entry points of the
    ros2_control system component that drives two wheels through the
    pigpio daemon.

    Conventions.
    - C++ [double] is Rocq's primitive binary64 [float]; the narrowing
      to C++ [float] is the IEEE binary32 rounding [to_binary32].
    - A C++ call that may throw is a computation in the monad [M]: it
      receives the component together with the daemon ([World]) and
      yields either a returned value or a thrown exception, and the
      world as the call left it.
    - The logger is a pure sink; the RCLCPP_INFO / RCLCPP_FATAL
      statements are not modelled. *)

From Stdlib Require Import ZArith Lia Ascii String.
From Stdlib Require Import Floats.PrimFloat Floats.SpecFloat Floats.FloatOps
  Floats.FloatAxioms.
From stdpp Require Import gmap strings list.

Local Open Scope Z_scope.

Set Warnings "-clear-no-such-hyp".

(* ===================================================================== *)
(** * The C++ runtime: exceptions, [std::stoi], [std::stoul], doubles    *)
(* ===================================================================== *)

(** The two exceptions [std::stoi] and [std::stoul] throw. *)
Inductive exception : Type :=
| invalid_argument
| out_of_range.

(** How a call ends: with a value, or with an exception on its way to
    the caller. *)
Inductive outcome (A : Type) : Type :=
| Returned (a : A)
| Thrown (e : exception).
Arguments Returned {A} a.
Arguments Thrown {A} e.

Definition is_returned {A} (o : outcome A) : Prop :=
  match o with Returned _ => True | Thrown _ => False end.

Module Cxx.

(** Widths of the LP64 data model of the 64-bit Linux targets of ROS 2. *)
Definition INT_MIN : Z := - 2 ^ 31.
Definition INT_MAX : Z := 2 ^ 31 - 1.
Definition ULONG_MAX : Z := 2 ^ 64 - 1.
Definition UINT_MAX : Z := 2 ^ 32 - 1.

(** The conversion of an [int] argument to a parameter of type
    [unsigned]: the value modulo 2^32. *)
Definition to_unsigned (z : Z) : Z := z mod (UINT_MAX + 1).

(** [isspace] in the C locale: space, and \t \n \v \f \r. *)
Definition isspace (c : ascii) : bool :=
  let n := Z.of_nat (nat_of_ascii c) in
  (n =? 32) || ((9 <=? n) && (n <=? 13)).

Definition digit_value (c : ascii) : option Z :=
  let n := Z.of_nat (nat_of_ascii c) in
  if (48 <=? n) && (n <=? 57) then Some (n - 48) else None.

Fixpoint skip_space (s : string) : string :=
  match s with
  | String c rest => if isspace c then skip_space rest else s
  | EmptyString => s
  end.

(** The longest prefix of decimal digits, accumulated in base ten;
    [None] when the string does not start with a digit. *)
Fixpoint digits_from (acc : Z) (s : string) : Z :=
  match s with
  | String c rest =>
      match digit_value c with
      | Some d => digits_from (10 * acc + d) rest
      | None => acc
      end
  | EmptyString => acc
  end.

Definition digits (s : string) : option Z :=
  match s with
  | String c _ =>
      match digit_value c with
      | Some _ => Some (digits_from 0 s)
      | None => None
      end
  | EmptyString => None
  end.

(** The subject sequence of [strtol] / [strtoul] in base ten: leading
    white space, an optional sign, decimal digits; what follows the
    digits is ignored. The result is the sign ([true] for minus) and
    the magnitude, or [None] when no conversion can be performed. *)
Definition subject (s : string) : option (bool * Z) :=
  match skip_space s with
  | String "-" rest => m ← digits rest; Some (true, m)
  | String "+" rest => m ← digits rest; Some (false, m)
  | rest => m ← digits rest; Some (false, m)
  end.

(** [std::stoi]: [invalid_argument] when no conversion can be
    performed, [out_of_range] when the value does not fit an [int]. *)
Definition stoi (s : string) : outcome Z :=
  match subject s with
  | None => Thrown invalid_argument
  | Some (neg, m) =>
      let v := if neg then - m else m in
      if (INT_MIN <=? v) && (v <=? INT_MAX) then Returned v
      else Thrown out_of_range
  end.

(** [std::stoul]: as [strtoul], a minus sign negates the magnitude in
    the unsigned type; [out_of_range] when the magnitude exceeds
    [ULONG_MAX]. *)
Definition stoul (s : string) : outcome Z :=
  match subject s with
  | None => Thrown invalid_argument
  | Some (neg, m) =>
      if m <=? ULONG_MAX
      then Returned (if neg then (- m) mod (ULONG_MAX + 1) else m)
      else Thrown out_of_range
  end.

(** Conversion of an integer to [double], rounded to nearest even. *)
Definition to_double (z : Z) : float :=
  SF2Prim (binary_normalize prec emax z 0 false).

(** The value a [double] has after it went through a variable of type
    [float]: rounded to binary32 (24 bits of precision, largest
    exponent 128), then widened again, which is exact. *)
Definition to_binary32 (x : float) : float :=
  match Prim2SF x with
  | S754_finite s m e => SF2Prim (binary_round 24 128 s m e)
  | _ => x
  end.

(** [M_PI] of <cmath>. *)
Definition M_PI : float := 0x1.921fb54442d18p+1%float.

End Cxx.

(* ===================================================================== *)
(** * The ros2_control types the component is written against            *)
(* ===================================================================== *)

(** [hardware_interface::CallbackReturn]. *)
Module CallbackReturn.
Inductive t : Type := SUCCESS | FAILURE | ERROR.
#[global] Instance eq_dec : EqDecision t.
Proof. solve_decision. Defined.
End CallbackReturn.

(** [hardware_interface::return_type]. *)
Module return_type.
Inductive t : Type := OK | ERROR.
End return_type.

(** The primary states of [rclcpp_lifecycle::State]; every callback
    receives the previous one and none of them looks at it. *)
Module State.
Inductive t : Type := Unconfigured | Inactive | Active | Finalized.
End State.

Definition HW_IF_POSITION : string := "position".
Definition HW_IF_VELOCITY : string := "velocity".

(** [hardware_interface::InterfaceInfo]; of its members the component
    reads the name only. *)
Module InterfaceInfo.
Record t : Type := mk { name : string }.
End InterfaceInfo.

(** [hardware_interface::ComponentInfo], one per declared joint. *)
Module ComponentInfo.
Record t : Type := mk {
  name : string;
  command_interfaces : list InterfaceInfo.t;
  state_interfaces : list InterfaceInfo.t
}.
End ComponentInfo.

(** [hardware_interface::HardwareInfo]: the string-keyed parameters (a
    [std::unordered_map]) and the declared joints. *)
Module HardwareInfo.
Record t : Type := mk {
  hardware_parameters : gmap string string;
  joints : list ComponentInfo.t
}.

Definition empty : t := mk ∅ [].

Definition set_hardware_parameters (m : gmap string string) (i : t) : t :=
  mk m (joints i).
End HardwareInfo.

(** [rclcpp::Duration] holds nanoseconds; [seconds()] converts the count
    to [double] and divides by 1e9. *)
Module Duration.
Record t : Type := mk { nanoseconds : Z }.

Definition seconds (d : t) : float :=
  (Cxx.to_double (nanoseconds d) / Cxx.to_double 1000000000)%float.
End Duration.

(** [rclcpp::Time]; the entry points ignore it. *)
Module Time.
Record t : Type := mk { nanoseconds : Z }.
End Time.

(* ===================================================================== *)
(** * The pigpio daemon, as seen through pigpiod_if2                     *)
(* ===================================================================== *)

(** The daemon is an external process. The model keeps what the
    component can observe of it: the set of connection handles that are
    open, the mode each pin was given, and the daemon's answers, which
    are inputs of the model: [start_reply] is what [pigpio_start]
    returns (a handle, or a negative error code), [mode_reply gpio mode]
    is what the next [set_mode] request that reaches the daemon returns
    (0, or a negative error code), and [later] lists the answers to the
    requests after that one, so that the daemon may accept a request
    and refuse the same request later. When the list is used up the
    daemon goes on with the answers it gave last. *)
Module Daemon.
Record t : Type := mk {
  in_use : gset Z;
  modes : gmap Z Z;
  start_reply : Z;
  mode_reply : Z → Z → Z;
  later : list (Z → Z → Z)
}.

(** The daemon once it answered a [set_mode] request: its next answer
    is the head of [later]. *)
Definition answered (d : t) : t :=
  match later d with
  | [] => d
  | f :: rest => mk (in_use d) (modes d) (start_reply d) f rest
  end.

Definition set_modes (m : gmap Z Z) (d : t) : t :=
  mk (in_use d) m (start_reply d) (mode_reply d) (later d).
End Daemon.

Definition PI_OUTPUT : Z := 1.
Definition pigif_unconnected_pi : Z := -2011.

(** [pigpio_start(NULL, NULL)]: a non-negative reply is the handle of a
    connection that is open from now on. *)
Definition pigpio_start (d : Daemon.t) : Z * Daemon.t :=
  let pi := Daemon.start_reply d in
  if 0 <=? pi
  then (pi, Daemon.mk ({[pi]} ∪ Daemon.in_use d) (Daemon.modes d)
              (Daemon.start_reply d) (Daemon.mode_reply d) (Daemon.later d))
  else (pi, d).

(** [pigpio_stop(pi)] closes the connection; it returns at once when
    [pi] is not the handle of an open connection. *)
Definition pigpio_stop (pi : Z) (d : Daemon.t) : Daemon.t :=
  Daemon.mk (Daemon.in_use d ∖ {[pi]}) (Daemon.modes d)
    (Daemon.start_reply d) (Daemon.mode_reply d) (Daemon.later d).

(** [set_mode(int pi, unsigned gpio, unsigned mode)]: forwarded to the
    daemon when [pi] is an open connection, refused by the library with
    [pigif_unconnected_pi], without a request, otherwise. The daemon
    answers the request, and when the answer is 0 the pin has the mode
    from then on. *)
Definition set_mode (pi gpio mode : Z) (d : Daemon.t) : Z * Daemon.t :=
  if decide (pi ∈ Daemon.in_use d)
  then
    let r := Daemon.mode_reply d gpio mode in
    let d' := Daemon.answered d in
    if r =? 0
    then (r, Daemon.set_modes (<[gpio := mode]> (Daemon.modes d')) d')
    else (r, d')
  else (pigif_unconnected_pi, d).

(* ===================================================================== *)
(** * The wheel                                                          *)
(* ===================================================================== *)

(** Modelled from the spec: the [Wheel] class, whose header is not part
    of the sources at hand. Spec section 3 gives its state (name,
    encoder counts per revolution, position, velocity, command) and
    section 4.2 its two operations; [enc] is the raw tick count the
    wheel-local accessor reads. [pos], [vel] and [cmd] are [double]:
    their addresses are handed to [StateInterface] and
    [CommandInterface], which take a [double *]. *)
Module Wheel.
Record t : Type := mk {
  name : string;
  enc : Z;
  cmd : float;
  pos : float;
  vel : float;
  counts_per_rev : Z
}.

Definition initial : t := mk EmptyString 0 0 0 0 0.

(** Modelled from the spec: [setup] "sets identity and resolution,
    zeroes position/velocity/command". *)
Definition setup (wheel_name : string) (counts : Z) (w : t) : t :=
  mk wheel_name (enc w) 0 0 0 counts.

(** Modelled from the spec: the angle is
    "ticks / counts_per_revolution * 2π", in [double] arithmetic. *)
Definition calc_enc_angle (w : t) : float :=
  (Cxx.to_double (enc w) / Cxx.to_double (counts_per_rev w)
   * (2 * Cxx.M_PI))%float.

Definition set_pos (p : float) (w : t) : t :=
  mk (name w) (enc w) (cmd w) p (vel w) (counts_per_rev w).
Definition set_vel (v : float) (w : t) : t :=
  mk (name w) (enc w) (cmd w) (pos w) v (counts_per_rev w).
Definition set_cmd (c : float) (w : t) : t :=
  mk (name w) (enc w) c (pos w) (vel w) (counts_per_rev w).
Definition set_enc (ticks : Z) (w : t) : t :=
  mk (name w) ticks (cmd w) (pos w) (vel w) (counts_per_rev w).
End Wheel.

(* ===================================================================== *)
(** * The component state                                                *)
(* ===================================================================== *)

(** The [Config] member [cfg_]. Its declaration is in the header; the
    members are those [on_init] assigns: the daemon handle [pi] (the
    [int] [pigpio_start] returns), the wheel names, the pins ([int],
    from [std::stoi]) and the encoder resolution, which holds the value
    [std::stoul] returned. *)
Module Config.
Record t : Type := mk {
  left_wheel_name : string;
  right_wheel_name : string;
  left_wheel_pin : Z;
  right_wheel_pin : Z;
  enc_counts_per_rev : Z;
  pi : Z
}.

Definition set_left_wheel_name (s : string) (c : t) : t :=
  mk s (right_wheel_name c) (left_wheel_pin c) (right_wheel_pin c)
    (enc_counts_per_rev c) (pi c).
Definition set_right_wheel_name (s : string) (c : t) : t :=
  mk (left_wheel_name c) s (left_wheel_pin c) (right_wheel_pin c)
    (enc_counts_per_rev c) (pi c).
Definition set_left_wheel_pin (n : Z) (c : t) : t :=
  mk (left_wheel_name c) (right_wheel_name c) n (right_wheel_pin c)
    (enc_counts_per_rev c) (pi c).
Definition set_right_wheel_pin (n : Z) (c : t) : t :=
  mk (left_wheel_name c) (right_wheel_name c) (left_wheel_pin c) n
    (enc_counts_per_rev c) (pi c).
Definition set_enc_counts_per_rev (n : Z) (c : t) : t :=
  mk (left_wheel_name c) (right_wheel_name c) (left_wheel_pin c)
    (right_wheel_pin c) n (pi c).
Definition set_pi (h : Z) (c : t) : t :=
  mk (left_wheel_name c) (right_wheel_name c) (left_wheel_pin c)
    (right_wheel_pin c) (enc_counts_per_rev c) h.
End Config.

(** The data members of [DiffBotSystemHardware]: [info_] is inherited
    from [hardware_interface::SystemInterface]. *)
Module DiffBotSystemHardware.
Record t : Type := mk {
  info_ : HardwareInfo.t;
  cfg_ : Config.t;
  wheel_left_ : Wheel.t;
  wheel_right_ : Wheel.t
}.

Definition set_info_ (i : HardwareInfo.t) (h : t) : t :=
  mk i (cfg_ h) (wheel_left_ h) (wheel_right_ h).
Definition set_cfg_ (c : Config.t) (h : t) : t :=
  mk (info_ h) c (wheel_left_ h) (wheel_right_ h).
Definition set_wheel_left_ (w : Wheel.t) (h : t) : t :=
  mk (info_ h) (cfg_ h) w (wheel_right_ h).
Definition set_wheel_right_ (w : Wheel.t) (h : t) : t :=
  mk (info_ h) (cfg_ h) (wheel_left_ h) w.
End DiffBotSystemHardware.

(** What a callback can read and change: the component and the daemon. *)
Module World.
Record t : Type := mk {
  hw : DiffBotSystemHardware.t;
  daemon : Daemon.t
}.
End World.

(** The connection the component holds is open. *)
Definition connected (w : World.t) : Prop :=
  Config.pi (DiffBotSystemHardware.cfg_ (World.hw w))
    ∈ Daemon.in_use (World.daemon w).

(* ===================================================================== *)
(** * Calls that change the world and may throw                          *)
(* ===================================================================== *)

Definition M (A : Type) : Type := World.t → outcome A * World.t.

#[global] Instance M_ret : MRet M := λ A a w, (Returned a, w).

#[global] Instance M_bind : MBind M := λ A B f m w,
  match m w with
  | (Returned a, w') => f a w'
  | (Thrown e, w') => (Thrown e, w')
  end.

(** The result of a library call that may throw. *)
Definition lift {A} (o : outcome A) : M A := λ w, (o, w).

Definition get_hw : M DiffBotSystemHardware.t :=
  λ w, (Returned (World.hw w), w).

Definition modify_hw (f : DiffBotSystemHardware.t → DiffBotSystemHardware.t)
  : M unit :=
  λ w, (Returned (), World.mk (f (World.hw w)) (World.daemon w)).

(** A call into pigpiod_if2. *)
Definition call_daemon {A} (f : Daemon.t → A * Daemon.t) : M A :=
  λ w, let (a, d) := f (World.daemon w) in
       (Returned a, World.mk (World.hw w) d).

Definition modify_cfg (f : Config.t → Config.t) : M unit :=
  modify_hw (λ h, DiffBotSystemHardware.set_cfg_
                    (f (DiffBotSystemHardware.cfg_ h)) h).

Definition modify_wheel_left (f : Wheel.t → Wheel.t) : M unit :=
  modify_hw (λ h, DiffBotSystemHardware.set_wheel_left_
                    (f (DiffBotSystemHardware.wheel_left_ h)) h).

Definition modify_wheel_right (f : Wheel.t → Wheel.t) : M unit :=
  modify_hw (λ h, DiffBotSystemHardware.set_wheel_right_
                    (f (DiffBotSystemHardware.wheel_right_ h)) h).

(** [info_.hardware_parameters[key]]: [operator[]] of the unordered map
    returns the mapped string and, when the key is absent, first inserts
    it with an empty string. *)
Definition hardware_parameter (key : string) : M string :=
  h ← get_hw;
  let params := HardwareInfo.hardware_parameters (DiffBotSystemHardware.info_ h) in
  match params !! key with
  | Some v => mret v
  | None =>
      modify_hw (DiffBotSystemHardware.set_info_
                   (HardwareInfo.set_hardware_parameters
                      (<[key := EmptyString]> params)
                      (DiffBotSystemHardware.info_ h)));;
      mret EmptyString
  end.

(** [hardware_interface::SystemInterface::on_init]: stores the
    description in [info_]. Its verdict is the framework's; it is an
    input of the model ([base]). *)
Definition SystemInterface_on_init (base : CallbackReturn.t)
  (info : HardwareInfo.t) : M CallbackReturn.t :=
  modify_hw (DiffBotSystemHardware.set_info_ info);;
  mret base.

(* ===================================================================== *)
(** * The callbacks of [DiffBotSystemHardware]                           *)
(* ===================================================================== *)

(** [v[i].name]. The source reads index 0 after it checked the size to
    be 1, and indices 0 and 1 after it checked the size to be 2, so the
    index is in range whenever the value is used. *)
Definition name_at (v : list InterfaceInfo.t) (i : nat) : string :=
  default EmptyString (InterfaceInfo.name <$> v !! i).

(** The body of the loop over [info_.joints]: [Some r] when the body
    executes [return r], [None] when it falls through to the next
    joint. *)
Definition check_joint (joint : ComponentInfo.t) : option CallbackReturn.t :=
  if negb (length (ComponentInfo.command_interfaces joint) =? 1)%nat
  then Some CallbackReturn.ERROR
  else if negb (String.eqb (name_at (ComponentInfo.command_interfaces joint) 0)
                  HW_IF_VELOCITY)
  then Some CallbackReturn.ERROR
  else if negb (length (ComponentInfo.state_interfaces joint) =? 2)%nat
  then Some CallbackReturn.ERROR
  else if negb (String.eqb (name_at (ComponentInfo.state_interfaces joint) 0)
                  HW_IF_POSITION)
  then Some CallbackReturn.ERROR
  else if negb (String.eqb (name_at (ComponentInfo.state_interfaces joint) 1)
                  HW_IF_VELOCITY)
  then Some CallbackReturn.ERROR
  else None.

(** The loop, and the [return SUCCESS] that follows it. *)
Fixpoint check_joints (joints : list ComponentInfo.t) : CallbackReturn.t :=
  match joints with
  | [] => CallbackReturn.SUCCESS
  | joint :: rest =>
      match check_joint joint with
      | Some r => r
      | None => check_joints rest
      end
  end.

Definition on_init (base : CallbackReturn.t) (info : HardwareInfo.t)
  : M CallbackReturn.t :=
  r ← SystemInterface_on_init base info;
  if decide (r ≠ CallbackReturn.SUCCESS) then mret CallbackReturn.ERROR
  else
    pi ← call_daemon pigpio_start;
    modify_cfg (Config.set_pi pi);;
    if pi <? 0 then mret CallbackReturn.ERROR
    else
      s ← hardware_parameter "left_wheel_name";
      modify_cfg (Config.set_left_wheel_name s);;
      s ← hardware_parameter "right_wheel_name";
      modify_cfg (Config.set_right_wheel_name s);;
      s ← hardware_parameter "left_wheel_pin";
      n ← lift (Cxx.stoi s);
      modify_cfg (Config.set_left_wheel_pin n);;
      s ← hardware_parameter "right_wheel_pin";
      n ← lift (Cxx.stoi s);
      modify_cfg (Config.set_right_wheel_pin n);;
      s ← hardware_parameter "enc_counts_per_rev";
      n ← lift (Cxx.stoul s);
      modify_cfg (Config.set_enc_counts_per_rev n);;
      h ← get_hw;
      let cfg := DiffBotSystemHardware.cfg_ h in
      modify_wheel_left
        (Wheel.setup (Config.left_wheel_name cfg) (Config.enc_counts_per_rev cfg));;
      modify_wheel_right
        (Wheel.setup (Config.right_wheel_name cfg) (Config.enc_counts_per_rev cfg));;
      h ← get_hw;
      mret (check_joints (HardwareInfo.joints (DiffBotSystemHardware.info_ h))).

(** A [StateInterface] holds a pointer to a [double] of the component;
    the pointer is the projection that reads it. *)
Module StateInterface.
Record t : Type := mk {
  prefix_name : string;
  interface_name : string;
  value_ptr : DiffBotSystemHardware.t → float
}.
Definition get_value (i : t) (w : World.t) : float :=
  value_ptr i (World.hw w).
End StateInterface.

(** A [CommandInterface] holds a pointer the controller writes through. *)
Module CommandInterface.
Record t : Type := mk {
  prefix_name : string;
  interface_name : string;
  set_ptr : float → DiffBotSystemHardware.t → DiffBotSystemHardware.t
}.
Definition set_value (i : t) (x : float) (w : World.t) : World.t :=
  World.mk (set_ptr i x (World.hw w)) (World.daemon w).
End CommandInterface.

Definition export_state_interfaces (h : DiffBotSystemHardware.t)
  : list StateInterface.t :=
  [ StateInterface.mk (Wheel.name (DiffBotSystemHardware.wheel_left_ h))
      HW_IF_POSITION (λ h, Wheel.pos (DiffBotSystemHardware.wheel_left_ h));
    StateInterface.mk (Wheel.name (DiffBotSystemHardware.wheel_left_ h))
      HW_IF_VELOCITY (λ h, Wheel.vel (DiffBotSystemHardware.wheel_left_ h));
    StateInterface.mk (Wheel.name (DiffBotSystemHardware.wheel_right_ h))
      HW_IF_POSITION (λ h, Wheel.pos (DiffBotSystemHardware.wheel_right_ h));
    StateInterface.mk (Wheel.name (DiffBotSystemHardware.wheel_right_ h))
      HW_IF_VELOCITY (λ h, Wheel.vel (DiffBotSystemHardware.wheel_right_ h)) ].

Definition export_command_interfaces (h : DiffBotSystemHardware.t)
  : list CommandInterface.t :=
  [ CommandInterface.mk (Wheel.name (DiffBotSystemHardware.wheel_left_ h))
      HW_IF_VELOCITY
      (λ x h, DiffBotSystemHardware.set_wheel_left_
                (Wheel.set_cmd x (DiffBotSystemHardware.wheel_left_ h)) h);
    CommandInterface.mk (Wheel.name (DiffBotSystemHardware.wheel_right_ h))
      HW_IF_VELOCITY
      (λ x h, DiffBotSystemHardware.set_wheel_right_
                (Wheel.set_cmd x (DiffBotSystemHardware.wheel_right_ h)) h) ].

Definition on_configure (previous_state : State.t) : M CallbackReturn.t :=
  h ← get_hw;
  let cfg := DiffBotSystemHardware.cfg_ h in
  r ← call_daemon (set_mode (Config.pi cfg)
                     (Cxx.to_unsigned (Config.left_wheel_pin cfg)) PI_OUTPUT);
  if negb (r =? 0)
  then
    call_daemon (λ d, ((), pigpio_stop (Config.pi cfg) d));;
    mret CallbackReturn.ERROR
  else
    r ← call_daemon (set_mode (Config.pi cfg)
                       (Cxx.to_unsigned (Config.right_wheel_pin cfg)) PI_OUTPUT);
    if negb (r =? 0)
    then
      call_daemon (λ d, ((), pigpio_stop (Config.pi cfg) d));;
      mret CallbackReturn.ERROR
    else mret CallbackReturn.SUCCESS.

Definition on_activate (previous_state : State.t) : M CallbackReturn.t :=
  mret CallbackReturn.SUCCESS.

Definition on_deactivate (previous_state : State.t) : M CallbackReturn.t :=
  mret CallbackReturn.SUCCESS.

Definition on_shutdown (previous_state : State.t) : M CallbackReturn.t :=
  h ← get_hw;
  call_daemon (λ d, ((), pigpio_stop (Config.pi (DiffBotSystemHardware.cfg_ h)) d));;
  mret CallbackReturn.SUCCESS.

(** One wheel's share of [read]: [pos_prev] is declared [float], so the
    previous position is narrowed to single precision before the
    subtraction, which is carried out in [double]. *)
Definition read_wheel (delta_seconds : float) (w : Wheel.t) : Wheel.t :=
  let pos_prev := Cxx.to_binary32 (Wheel.pos w) in
  let w := Wheel.set_pos (Wheel.calc_enc_angle w) w in
  Wheel.set_vel ((Wheel.pos w - pos_prev) / delta_seconds)%float w.

Definition read (time : Time.t) (period : Duration.t) : M return_type.t :=
  let delta_seconds := Duration.seconds period in
  modify_wheel_left (read_wheel delta_seconds);;
  modify_wheel_right (read_wheel delta_seconds);;
  mret return_type.OK.

Definition write (time : Time.t) (period : Duration.t) : M return_type.t :=
  mret return_type.OK.

(* ===================================================================== *)
(** * Vocabulary of the statements                                       *)
(* ===================================================================== *)

(** The string [on_init] obtains for a key: the mapped one, or the empty
    string [operator[]] creates. *)
Definition param_value (key : string) (info : HardwareInfo.t) : string :=
  default EmptyString (HardwareInfo.hardware_parameters info !! key).

(** The description after [operator[]] was applied to [key]. *)
Definition touch (key : string) (info : HardwareInfo.t) : HardwareInfo.t :=
  match HardwareInfo.hardware_parameters info !! key with
  | Some _ => info
  | None =>
      HardwareInfo.set_hardware_parameters
        (<[key := EmptyString]> (HardwareInfo.hardware_parameters info)) info
  end.

(** The description as the five parameter reads of [on_init] leave it. *)
Definition touched (info : HardwareInfo.t) : HardwareInfo.t :=
  touch "enc_counts_per_rev"
    (touch "right_wheel_pin"
       (touch "left_wheel_pin"
          (touch "right_wheel_name" (touch "left_wheel_name" info)))).

(** The two pins and the resolution are accepted by [std::stoi] and
    [std::stoul]. *)
Definition numeric_params_parse (info : HardwareInfo.t) : Prop :=
  is_returned (Cxx.stoi (param_value "left_wheel_pin" info)) ∧
  is_returned (Cxx.stoi (param_value "right_wheel_pin" info)) ∧
  is_returned (Cxx.stoul (param_value "enc_counts_per_rev" info)).

(** The interface shape the spec asks of a joint: exactly one command
    interface, named velocity, and exactly two state interfaces, the
    first named position and the second named velocity. *)
Definition conforms (joint : ComponentInfo.t) : Prop :=
  (∃ c, ComponentInfo.command_interfaces joint = [c] ∧
        InterfaceInfo.name c = HW_IF_VELOCITY) ∧
  (∃ p v, ComponentInfo.state_interfaces joint = [p; v] ∧
          InterfaceInfo.name p = HW_IF_POSITION ∧
          InterfaceInfo.name v = HW_IF_VELOCITY).

(** The left or the right wheel of a world. *)
Inductive side : Type := Left | Right.

Definition wheel (s : side) (w : World.t) : Wheel.t :=
  match s with
  | Left => DiffBotSystemHardware.wheel_left_ (World.hw w)
  | Right => DiffBotSystemHardware.wheel_right_ (World.hw w)
  end.

Definition handle (w : World.t) : Z :=
  Config.pi (DiffBotSystemHardware.cfg_ (World.hw w)).

(** ** Concrete configurations used in the examples *)

Definition wheel_joint (n : string) : ComponentInfo.t :=
  ComponentInfo.mk n
    [InterfaceInfo.mk HW_IF_VELOCITY]
    [InterfaceInfo.mk HW_IF_POSITION; InterfaceInfo.mk HW_IF_VELOCITY].

(** A joint that declares no command interface. *)
Definition passive_joint (n : string) : ComponentInfo.t :=
  ComponentInfo.mk n []
    [InterfaceInfo.mk HW_IF_POSITION; InterfaceInfo.mk HW_IF_VELOCITY].

Definition params (left_pin right_pin counts : string) : gmap string string :=
  <["left_wheel_name" := "left_wheel_joint"]>
    (<["right_wheel_name" := "right_wheel_joint"]>
       (<["left_wheel_pin" := left_pin]>
          (<["right_wheel_pin" := right_pin]>
             (<["enc_counts_per_rev" := counts]> ∅)))).

Definition two_wheels : list ComponentInfo.t :=
  [wheel_joint "left_wheel_joint"; wheel_joint "right_wheel_joint"].

Definition info_nominal : HardwareInfo.t :=
  HardwareInfo.mk (params "17" "27" "20") two_wheels.

Definition info_zero_counts : HardwareInfo.t :=
  HardwareInfo.mk (params "17" "27" "0") two_wheels.

Definition info_bad_pin : HardwareInfo.t :=
  HardwareInfo.mk (params "GPIO17" "27" "20") two_wheels.

Definition info_passive_joint : HardwareInfo.t :=
  HardwareInfo.mk (params "17" "27" "20")
    [wheel_joint "left_wheel_joint"; passive_joint "right_wheel_joint"].

Definition info_three_joints : HardwareInfo.t :=
  HardwareInfo.mk (params "17" "27" "20")
    [wheel_joint "left_wheel_joint"; wheel_joint "right_wheel_joint";
     wheel_joint "caster_joint"].

(** A daemon that is reachable, hands out handle 0 and accepts every
    pin, and one that refuses pin 27. *)
Definition daemon_up : Daemon.t := Daemon.mk ∅ ∅ 0 (λ _ _, 0) [].

Definition daemon_refusing_27 : Daemon.t :=
  Daemon.mk ∅ ∅ 0 (λ gpio _, if gpio =? 27 then -3 else 0) [].

(** A daemon that refuses pin 17 at each of its next three requests,
    and one that checks the pin number as the real one does (pins 0 to
    53, [PI_BAD_GPIO] otherwise). *)
Definition refuse_17 (gpio mode : Z) : Z := if gpio =? 17 then -3 else 0.

Definition daemon_refusing_17 : Daemon.t :=
  Daemon.mk ∅ ∅ 0 refuse_17 [refuse_17; refuse_17].

Definition daemon_checking_gpio : Daemon.t :=
  Daemon.mk ∅ ∅ 0 (λ gpio _, if gpio <=? 53 then 0 else -3) [].

(** A daemon that accepts every request of a first configuration and
    refuses every request after the first two. *)
Definition daemon_changing_its_mind : Daemon.t :=
  Daemon.mk ∅ ∅ 0 (λ _ _, 0) [(λ _ _, 0); (λ _ _, -41)].

(** A malformed left pin together with a right joint that declares no
    command interface, and a negative left pin. *)
Definition info_bad_pin_passive_joint : HardwareInfo.t :=
  HardwareInfo.mk (params "GPIO17" "27" "20")
    [wheel_joint "left_wheel_joint"; passive_joint "right_wheel_joint"].

Definition info_negative_pin : HardwareInfo.t :=
  HardwareInfo.mk (params "-1" "27" "20") two_wheels.

(** Both wheels on pin 17, and a daemon that accepts one request and
    refuses the following ones. *)
Definition info_same_pin : HardwareInfo.t :=
  HardwareInfo.mk (params "17" "17" "20") two_wheels.

Definition daemon_accepting_once : Daemon.t :=
  Daemon.mk ∅ ∅ 0 (λ _ _, 0) [(λ _ _, -41)].

Definition hw_fresh : DiffBotSystemHardware.t :=
  DiffBotSystemHardware.mk HardwareInfo.empty
    (Config.mk EmptyString EmptyString 0 0 0 (-1))
    Wheel.initial Wheel.initial.

Definition world_fresh : World.t := World.mk hw_fresh daemon_up.

(** Run a call for its world, and for its verdict. *)
Definition exec {A} (m : M A) (w : World.t) : World.t := snd (m w).
Definition eval {A} (m : M A) (w : World.t) : outcome A := fst (m w).

(** The encoder reports [ticks] on both wheels. *)
Definition with_ticks (ticks : Z) (w : World.t) : World.t :=
  World.mk
    (DiffBotSystemHardware.mk
       (DiffBotSystemHardware.info_ (World.hw w))
       (DiffBotSystemHardware.cfg_ (World.hw w))
       (Wheel.set_enc ticks (wheel Left w))
       (Wheel.set_enc ticks (wheel Right w)))
    (World.daemon w).

Definition time0 : Time.t := Time.mk 0.
Definition ms (n : Z) : Duration.t := Duration.mk (n * 1000000).

(** Replace the description held by the component. *)
Definition with_info (i : HardwareInfo.t) (w : World.t) : World.t :=
  World.mk (DiffBotSystemHardware.set_info_ i (World.hw w)) (World.daemon w).

(** The verdict of [on_init], read off its control flow. *)
Definition on_init_verdict (base : CallbackReturn.t) (info : HardwareInfo.t)
  (d : Daemon.t) : outcome CallbackReturn.t :=
  if decide (base ≠ CallbackReturn.SUCCESS) then Returned CallbackReturn.ERROR
  else if Daemon.start_reply d <? 0 then Returned CallbackReturn.ERROR
  else
    match Cxx.stoi (param_value "left_wheel_pin" info) with
    | Thrown e => Thrown e
    | Returned _ =>
        match Cxx.stoi (param_value "right_wheel_pin" info) with
        | Thrown e => Thrown e
        | Returned _ =>
            match Cxx.stoul (param_value "enc_counts_per_rev" info) with
            | Thrown e => Thrown e
            | Returned _ => Returned (check_joints (HardwareInfo.joints info))
            end
        end
    end.

(** The world [on_init] leaves when the connection is made and the three
    numbers parse: everything is set up, whatever the verdict on the
    joints. *)
Definition on_init_world (info : HardwareInfo.t) (a b c : Z) (w : World.t)
  : World.t :=
  let ln := param_value "left_wheel_name" info in
  let rn := param_value "right_wheel_name" info in
  World.mk
    (DiffBotSystemHardware.mk (touched info)
       (Config.mk ln rn a b c (Daemon.start_reply (World.daemon w)))
       (Wheel.setup ln c (wheel Left w))
       (Wheel.setup rn c (wheel Right w)))
    (snd (pigpio_start (World.daemon w))).

Arguments hardware_parameter : simpl never.

(** Unfold the sequencing of calls down to the worlds they produce. *)
Ltac run :=
  unfold mbind, M_bind, mret, M_ret, lift, get_hw, modify_cfg,
    modify_wheel_left, modify_wheel_right, modify_hw, call_daemon; cbn.

(** ** Vocabulary of the further properties *)

(** The description with every joint renamed by [f]. *)
Definition rename_joint (f : string → string) (joint : ComponentInfo.t)
  : ComponentInfo.t :=
  ComponentInfo.mk (f (ComponentInfo.name joint))
    (ComponentInfo.command_interfaces joint)
    (ComponentInfo.state_interfaces joint).

Definition rename_joints (f : string → string) (info : HardwareInfo.t)
  : HardwareInfo.t :=
  HardwareInfo.mk (HardwareInfo.hardware_parameters info)
    (map (rename_joint f) (HardwareInfo.joints info)).

(** What a controller reads through a list of state interfaces. *)
Definition state_values (ifs : list StateInterface.t) (w : World.t)
  : list float :=
  map (λ i, StateInterface.get_value i w) ifs.

(** The world after the controller stored two commands through the
    exported command interfaces. *)
Definition command (cmd_left cmd_right : float) (w : World.t) : World.t :=
  match export_command_interfaces (World.hw w) with
  | [l; r] =>
      CommandInterface.set_value r cmd_right
        (CommandInterface.set_value l cmd_left w)
  | _ => w
  end.

(** A [double] that is an infinity or not a number. *)
Definition non_finite (x : float) : Prop :=
  Prim2SF x = S754_nan ∨ ∃ s, Prim2SF x = S754_infinity s.

(** The open connections of a world. *)
Definition open_connections (w : World.t) : gset Z :=
  Daemon.in_use (World.daemon w).

(** The mode the daemon holds for a pin, if it was ever set. *)
Definition mode_of (gpio : Z) (w : World.t) : option Z :=
  Daemon.modes (World.daemon w) !! gpio.

(** The two requests of [on_configure]: the [set_mode] for the left pin,
    sent to the daemon as the callback finds it, and the [set_mode] for
    the right pin, sent to the daemon as the first request left it.
    Each is the answer together with the daemon after the call. *)
Definition left_request (w : World.t) : Z * Daemon.t :=
  set_mode (handle w)
    (Cxx.to_unsigned
       (Config.left_wheel_pin (DiffBotSystemHardware.cfg_ (World.hw w))))
    PI_OUTPUT (World.daemon w).

Definition right_request (w : World.t) : Z * Daemon.t :=
  set_mode (handle w)
    (Cxx.to_unsigned
       (Config.right_wheel_pin (DiffBotSystemHardware.cfg_ (World.hw w))))
    PI_OUTPUT (snd (left_request w)).

(** The full names under which the interfaces are exported. *)
Definition state_interface_names (h : DiffBotSystemHardware.t)
  : list (string * string) :=
  map (λ i, (StateInterface.prefix_name i, StateInterface.interface_name i))
    (export_state_interfaces h).

Definition command_interface_names (h : DiffBotSystemHardware.t)
  : list (string * string) :=
  map (λ i, (CommandInterface.prefix_name i, CommandInterface.interface_name i))
    (export_command_interfaces h).

(* ===================================================================== *)
(** * The C++ runtime on examples                                        *)
(* ===================================================================== *)

Example stoi_plain : Cxx.stoi "17" = Returned 17.
Proof. reflexivity. Qed.
Example stoi_signed_with_tail : Cxx.stoi "  -42rpm" = Returned (-42).
Proof. reflexivity. Qed.
Example stoi_empty : Cxx.stoi EmptyString = Thrown invalid_argument.
Proof. reflexivity. Qed.
Example stoi_letters : Cxx.stoi "gpio4" = Thrown invalid_argument.
Proof. reflexivity. Qed.
Example stoi_too_big : Cxx.stoi "2147483648" = Thrown out_of_range.
Proof. reflexivity. Qed.
Example stoul_zero : Cxx.stoul "0" = Returned 0.
Proof. reflexivity. Qed.
Example stoul_minus_one : Cxx.stoul "-1" = Returned (2 ^ 64 - 1).
Proof. reflexivity. Qed.
Example binary32_of_pi :
  Cxx.to_binary32 Cxx.M_PI = 0x1.921fb6p+1%float.
Proof. vm_compute. reflexivity. Qed.
Example binary32_of_small_integer :
  Cxx.to_binary32 (Cxx.to_double 12345) = Cxx.to_double 12345.
Proof. vm_compute. reflexivity. Qed.

(* ===================================================================== *)
(** * Running a sequence of calls                                        *)
(* ===================================================================== *)

Lemma bind_returned {A B} (m : M A) (f : A → M B) (w w' : World.t) (a : A) :
  m w = (Returned a, w') → (m ≫= f) w = f a w'.
Proof. intros H. unfold mbind, M_bind. now rewrite H. Qed.

Lemma bind_thrown {A B} (m : M A) (f : A → M B) (w w' : World.t) e :
  m w = (Thrown e, w') → (m ≫= f) w = (Thrown e, w').
Proof. intros H. unfold mbind, M_bind. now rewrite H. Qed.

Lemma hardware_parameter_run (key : string) (w : World.t) :
  hardware_parameter key w =
    (Returned (param_value key (DiffBotSystemHardware.info_ (World.hw w))),
     with_info (touch key (DiffBotSystemHardware.info_ (World.hw w))) w).
Proof.
  unfold hardware_parameter, param_value, touch, with_info.
  destruct w as [[i c l r] d]. run.
  destruct (HardwareInfo.hardware_parameters i !! key) eqn:E; cbn.
  - destruct i; reflexivity.
  - reflexivity.
Qed.

Lemma param_value_touch (k k' : string) (i : HardwareInfo.t) :
  param_value k (touch k' i) = param_value k i.
Proof.
  unfold param_value, touch.
  destruct (HardwareInfo.hardware_parameters i !! k') eqn:E; [reflexivity|].
  cbn. destruct (decide (k' = k)) as [->|Hne].
  - now rewrite lookup_insert_eq, E.
  - now rewrite lookup_insert_ne.
Qed.

Lemma joints_touch (k : string) (i : HardwareInfo.t) :
  HardwareInfo.joints (touch k i) = HardwareInfo.joints i.
Proof.
  unfold touch. now destruct (HardwareInfo.hardware_parameters i !! k).
Qed.

Lemma joints_touched (i : HardwareInfo.t) :
  HardwareInfo.joints (touched i) = HardwareInfo.joints i.
Proof. unfold touched. now rewrite !joints_touch. Qed.

Lemma pigpio_start_reply (d : Daemon.t) :
  fst (pigpio_start d) = Daemon.start_reply d.
Proof. unfold pigpio_start. now destruct (0 <=? Daemon.start_reply d). Qed.

Lemma on_init_eval (base : CallbackReturn.t) (info : HardwareInfo.t)
  (w : World.t) :
  eval (on_init base info) w = on_init_verdict base info (World.daemon w).
Proof.
  unfold eval, on_init, on_init_verdict, SystemInterface_on_init.
  destruct w as [[i c l r] d]. run.
  destruct (decide (base ≠ CallbackReturn.SUCCESS)); [reflexivity|]. cbn.
  destruct (pigpio_start d) as [pi d'] eqn:Hstart. cbn.
  assert (pi = Daemon.start_reply d) as ->
    by (rewrite <- pigpio_start_reply, Hstart; reflexivity).
  destruct (Daemon.start_reply d <? 0); [reflexivity|].
  rewrite hardware_parameter_run; cbn.
  rewrite hardware_parameter_run; cbn.
  rewrite hardware_parameter_run; cbn.
  rewrite !param_value_touch.
  destruct (Cxx.stoi (param_value "left_wheel_pin" info)); [|reflexivity].
  cbn. rewrite hardware_parameter_run; cbn.
  rewrite !param_value_touch.
  destruct (Cxx.stoi (param_value "right_wheel_pin" info)); [|reflexivity].
  cbn. rewrite hardware_parameter_run; cbn.
  rewrite !param_value_touch.
  destruct (Cxx.stoul (param_value "enc_counts_per_rev" info)); [|reflexivity].
  cbn. now rewrite !joints_touch.
Qed.

Lemma on_init_run_parsed (base : CallbackReturn.t) (info : HardwareInfo.t)
  (w : World.t) (a b c : Z) :
  base = CallbackReturn.SUCCESS →
  0 <= Daemon.start_reply (World.daemon w) →
  Cxx.stoi (param_value "left_wheel_pin" info) = Returned a →
  Cxx.stoi (param_value "right_wheel_pin" info) = Returned b →
  Cxx.stoul (param_value "enc_counts_per_rev" info) = Returned c →
  on_init base info w =
    (Returned (check_joints (HardwareInfo.joints info)),
     on_init_world info a b c w).
Proof.
  intros -> Hpi Ha Hb Hc.
  unfold on_init, on_init_world, SystemInterface_on_init.
  destruct w as [[i cfg l r] d]. run.
  destruct (decide (CallbackReturn.SUCCESS ≠ CallbackReturn.SUCCESS));
    [congruence|]. cbn in *.
  destruct (pigpio_start d) as [pi d'] eqn:Hstart. cbn in *.
  assert (pi = Daemon.start_reply d) as ->
    by (rewrite <- pigpio_start_reply, Hstart; reflexivity).
  destruct (Daemon.start_reply d <? 0) eqn:Hneg; [lia|].
  rewrite hardware_parameter_run; cbn.
  rewrite hardware_parameter_run; cbn.
  rewrite hardware_parameter_run; cbn.
  rewrite !param_value_touch, Ha. cbn.
  rewrite hardware_parameter_run; cbn.
  rewrite !param_value_touch, Hb. cbn.
  rewrite hardware_parameter_run; cbn.
  rewrite !param_value_touch, Hc. cbn.
  now rewrite !joints_touch.
Qed.

(* ===================================================================== *)
(** * The check of the declared joints                                   *)
(* ===================================================================== *)

Lemma check_joint_error (joint : ComponentInfo.t) (r : CallbackReturn.t) :
  check_joint joint = Some r → r = CallbackReturn.ERROR.
Proof.
  unfold check_joint.
  repeat match goal with
         | |- context [if ?b then _ else _] => destruct b
         end; congruence.
Qed.

(** The five tests of the loop body pass exactly on the joints of the
    required shape. *)
Lemma check_joint_conforms (joint : ComponentInfo.t) :
  check_joint joint = None ↔ conforms joint.
Proof.
  destruct joint as [n ci si]. unfold check_joint, conforms, name_at. cbn.
  split.
  - destruct ci as [|c [|c' ci]]; cbn; try discriminate.
    destruct (String.eqb_spec (InterfaceInfo.name c) HW_IF_VELOCITY) as [Hc|];
      cbn; try discriminate.
    destruct si as [|p [|v [|x si]]]; cbn; try discriminate.
    destruct (String.eqb_spec (InterfaceInfo.name p) HW_IF_POSITION) as [Hp|];
      cbn; try discriminate.
    destruct (String.eqb_spec (InterfaceInfo.name v) HW_IF_VELOCITY) as [Hv|];
      cbn; try discriminate.
    intros _. split; [exists c | exists p, v]; auto.
  - intros [(c & -> & Hc) (p & v & -> & Hp & Hv)]. cbn.
    rewrite Hc, Hp, Hv. reflexivity.
Qed.

Lemma check_joints_verdict (joints : list ComponentInfo.t) :
  (Forall conforms joints ∧ check_joints joints = CallbackReturn.SUCCESS) ∨
  (¬ Forall conforms joints ∧ check_joints joints = CallbackReturn.ERROR).
Proof.
  induction joints as [|j js IH]; cbn.
  - left. split; [constructor | reflexivity].
  - destruct (check_joint j) as [r|] eqn:E.
    + right. split.
      * intros HF. inversion HF as [|? ? Hj _]; subst.
        apply check_joint_conforms in Hj. congruence.
      * now apply check_joint_error in E.
    + apply check_joint_conforms in E.
      destruct IH as [[HF ->]|[HF ->]].
      * left. split; [now constructor | reflexivity].
      * right. split; [|reflexivity].
        intros HF'. inversion HF'; subst. contradiction.
Qed.

Lemma check_joints_success (joints : list ComponentInfo.t) :
  check_joints joints = CallbackReturn.SUCCESS ↔ Forall conforms joints.
Proof.
  destruct (check_joints_verdict joints) as [[HF E]|[HF E]]; rewrite E.
  - tauto.
  - split; [discriminate | contradiction].
Qed.

Lemma check_joints_error (joints : list ComponentInfo.t) :
  check_joints joints = CallbackReturn.ERROR ↔ ¬ Forall conforms joints.
Proof.
  destruct (check_joints_verdict joints) as [[HF E]|[HF E]]; rewrite E.
  - split; [discriminate | contradiction].
  - tauto.
Qed.

(* ===================================================================== *)
(** * Initialization                                                     *)
(* ===================================================================== *)

(** When [on_init] got past the connection and returned, the connection
    it made is open in the world it leaves, whatever it returned. *)
Lemma on_init_returned_connected (base : CallbackReturn.t)
  (info : HardwareInfo.t) (w : World.t) (r : CallbackReturn.t) :
  base = CallbackReturn.SUCCESS →
  0 <= Daemon.start_reply (World.daemon w) →
  eval (on_init base info) w = Returned r →
  connected (exec (on_init base info) w) ∧
  handle (exec (on_init base info) w) = Daemon.start_reply (World.daemon w).
Proof.
  intros Hb Hpi Hr. rewrite on_init_eval in Hr. unfold on_init_verdict in Hr.
  destruct (decide (base ≠ CallbackReturn.SUCCESS)); [contradiction|].
  destruct (Daemon.start_reply (World.daemon w) <? 0) eqn:Hneg; [lia|].
  destruct (Cxx.stoi (param_value "left_wheel_pin" info)) as [a|] eqn:Ha;
    [|discriminate].
  destruct (Cxx.stoi (param_value "right_wheel_pin" info)) as [b|] eqn:Hb';
    [|discriminate].
  destruct (Cxx.stoul (param_value "enc_counts_per_rev" info)) as [c|] eqn:Hc;
    [|discriminate].
  unfold exec. rewrite (on_init_run_parsed _ _ _ a b c) by assumption.
  unfold connected, handle, on_init_world, pigpio_start. cbn.
  destruct (0 <=? Daemon.start_reply (World.daemon w)) eqn:Hle; [|lia].
  cbn. split; [set_solver | reflexivity].
Qed.

(** C1, as stated, fails: with [enc_counts_per_rev] set to 0, a reachable
    daemon and two well-formed joints, [on_init] returns SUCCESS, both
    wheels carry the resolution 0, and the first [read] publishes a
    not-a-number position. *)
Lemma on_init_zero_counts_succeeds :
  HardwareInfo.hardware_parameters info_zero_counts !! "enc_counts_per_rev"
    = Some "0" ∧
  eval (on_init CallbackReturn.SUCCESS info_zero_counts) world_fresh
    = Returned CallbackReturn.SUCCESS ∧
  Wheel.counts_per_rev
    (wheel Left (exec (on_init CallbackReturn.SUCCESS info_zero_counts) world_fresh))
    = 0 ∧
  is_nan
    (Wheel.pos
       (wheel Left
          (exec (read time0 (ms 10))
             (exec (on_init CallbackReturn.SUCCESS info_zero_counts) world_fresh))))
    = true.
Proof. vm_compute. repeat split. Qed.

(** C1, amended: [on_init] does not look at the value of the encoder
    resolution. When the base class accepts the description, the daemon
    connection is made and both pins parse, a resolution that parses to
    0 is taken as it is: both wheels are set up with 0 counts per
    revolution, and the verdict is the one on the joints alone, SUCCESS
    if every joint has the required shape and ERROR otherwise. *)
Theorem on_init_accepts_zero_counts (base : CallbackReturn.t)
  (info : HardwareInfo.t) (w : World.t) :
  base = CallbackReturn.SUCCESS →
  0 <= Daemon.start_reply (World.daemon w) →
  is_returned (Cxx.stoi (param_value "left_wheel_pin" info)) →
  is_returned (Cxx.stoi (param_value "right_wheel_pin" info)) →
  Cxx.stoul (param_value "enc_counts_per_rev" info) = Returned 0 →
  (Forall conforms (HardwareInfo.joints info) ∧
   eval (on_init base info) w = Returned CallbackReturn.SUCCESS
   ∨ ¬ Forall conforms (HardwareInfo.joints info) ∧
     eval (on_init base info) w = Returned CallbackReturn.ERROR) ∧
  Wheel.counts_per_rev (wheel Left (exec (on_init base info) w)) = 0 ∧
  Wheel.counts_per_rev (wheel Right (exec (on_init base info) w)) = 0.
Proof.
  intros Hb Hpi Hl Hr Hc.
  destruct (Cxx.stoi (param_value "left_wheel_pin" info)) as [a|] eqn:Ha;
    [|contradiction].
  destruct (Cxx.stoi (param_value "right_wheel_pin" info)) as [b|] eqn:Hb';
    [|contradiction].
  unfold eval, exec. rewrite (on_init_run_parsed _ _ _ a b 0) by assumption.
  cbn. repeat split.
  destruct (check_joints_verdict (HardwareInfo.joints info)) as [[HF ->]|[HF ->]];
    [left | right]; split; auto.
Qed.

Lemma on_init_accepts_zero_counts_witness :
  (Forall conforms (HardwareInfo.joints info_zero_counts) ∧
   eval (on_init CallbackReturn.SUCCESS info_zero_counts) world_fresh
     = Returned CallbackReturn.SUCCESS
   ∨ ¬ Forall conforms (HardwareInfo.joints info_zero_counts) ∧
     eval (on_init CallbackReturn.SUCCESS info_zero_counts) world_fresh
       = Returned CallbackReturn.ERROR) ∧
  Wheel.counts_per_rev
    (wheel Left (exec (on_init CallbackReturn.SUCCESS info_zero_counts) world_fresh))
    = 0 ∧
  Wheel.counts_per_rev
    (wheel Right (exec (on_init CallbackReturn.SUCCESS info_zero_counts) world_fresh))
    = 0.
Proof.
  apply (on_init_accepts_zero_counts CallbackReturn.SUCCESS info_zero_counts
           world_fresh).
  - reflexivity.
  - vm_compute. discriminate.
  - vm_compute. exact I.
  - vm_compute. exact I.
  - vm_compute. reflexivity.
Defined.

(** C2, at a failing input: the right joint declares no command
    interface. [on_init] returns ERROR, yet the connection it opened
    (handle 0) is still open, and the configuration and the wheel names
    it had set by then stay set. The error paths of [on_configure] call
    [pigpio_stop] before they return; those of [on_init] do not. *)
Theorem on_init_error_leaves_connection_open :
  eval (on_init CallbackReturn.SUCCESS info_passive_joint) world_fresh
    = Returned CallbackReturn.ERROR ∧
  handle (exec (on_init CallbackReturn.SUCCESS info_passive_joint) world_fresh)
    = 0 ∧
  connected (exec (on_init CallbackReturn.SUCCESS info_passive_joint) world_fresh) ∧
  ¬ connected world_fresh ∧
  Wheel.name
    (wheel Left (exec (on_init CallbackReturn.SUCCESS info_passive_joint) world_fresh))
    = "left_wheel_joint".
Proof.
  assert (eval (on_init CallbackReturn.SUCCESS info_passive_joint) world_fresh
          = Returned CallbackReturn.ERROR) as HE by (vm_compute; reflexivity).
  split; [exact HE|].
  destruct (on_init_returned_connected CallbackReturn.SUCCESS info_passive_joint
              world_fresh CallbackReturn.ERROR) as [Hc Hh];
    [reflexivity | vm_compute; discriminate | exact HE |].
  split; [exact Hh|]. split; [exact Hc|]. split.
  - unfold connected, world_fresh, daemon_up. cbn. set_solver.
  - vm_compute. reflexivity.
Qed.

(** C3, as stated, fails: with the left pin given as "GPIO17" and a
    reachable daemon, [on_init] does not return; the [invalid_argument]
    of [std::stoi] reaches the caller. The same happens when the pin is
    missing from the parameters. *)
Lemma on_init_malformed_pin_throws :
  eval (on_init CallbackReturn.SUCCESS info_bad_pin) world_fresh
    = Thrown invalid_argument ∧
  eval (on_init CallbackReturn.SUCCESS HardwareInfo.empty) world_fresh
    = Thrown invalid_argument.
Proof. vm_compute. split; reflexivity. Qed.

(** C3, amended: [on_init] terminates with a returned value exactly when
    the base class rejects the description, or the daemon connection
    fails, or both pins and the encoder resolution are accepted by
    [std::stoi] / [std::stoul]. In the remaining case (connection made,
    a pin or the resolution missing or malformed) the exception of the
    conversion propagates to the caller. *)
Theorem on_init_returns_iff (base : CallbackReturn.t) (info : HardwareInfo.t)
  (w : World.t) :
  is_returned (eval (on_init base info) w) ↔
    base ≠ CallbackReturn.SUCCESS ∨
    Daemon.start_reply (World.daemon w) < 0 ∨
    numeric_params_parse info.
Proof.
  rewrite on_init_eval. unfold on_init_verdict, numeric_params_parse.
  destruct (decide (base ≠ CallbackReturn.SUCCESS)) as [Hb|Hb]; cbn; [tauto|].
  destruct (Daemon.start_reply (World.daemon w) <? 0) eqn:Hneg; cbn.
  - apply Z.ltb_lt in Hneg. tauto.
  - apply Z.ltb_ge in Hneg.
    destruct (Cxx.stoi (param_value "left_wheel_pin" info)); cbn;
      [|intuition lia].
    destruct (Cxx.stoi (param_value "right_wheel_pin" info)); cbn;
      [|intuition lia].
    destruct (Cxx.stoul (param_value "enc_counts_per_rev" info)); cbn;
      intuition lia.
Qed.

(** What is thrown is the exception of the first conversion that fails. *)
Lemma on_init_throws_first_failure (base : CallbackReturn.t)
  (info : HardwareInfo.t) (w : World.t) (e : exception) :
  eval (on_init base info) w = Thrown e →
  Cxx.stoi (param_value "left_wheel_pin" info) = Thrown e ∨
  Cxx.stoi (param_value "right_wheel_pin" info) = Thrown e ∨
  Cxx.stoul (param_value "enc_counts_per_rev" info) = Thrown e.
Proof.
  rewrite on_init_eval. unfold on_init_verdict.
  destruct (decide (base ≠ CallbackReturn.SUCCESS)); [discriminate|].
  destruct (Daemon.start_reply (World.daemon w) <? 0); [discriminate|].
  destruct (Cxx.stoi (param_value "left_wheel_pin" info));
    [|intros [= ->]; auto].
  destruct (Cxx.stoi (param_value "right_wheel_pin" info));
    [|intros [= ->]; auto].
  destruct (Cxx.stoul (param_value "enc_counts_per_rev" info));
    [discriminate | intros [= ->]; auto].
Qed.

(** A missing wheel name is no error: [operator[]] supplies the empty
    string and the wheel is set up under it. *)
Example on_init_missing_wheel_names :
  let info :=
    HardwareInfo.mk
      (<["left_wheel_pin" := "17"]>
         (<["right_wheel_pin" := "27"]> (<["enc_counts_per_rev" := "20"]> ∅)))
      two_wheels in
  eval (on_init CallbackReturn.SUCCESS info) world_fresh
    = Returned CallbackReturn.SUCCESS ∧
  Wheel.name (wheel Left (exec (on_init CallbackReturn.SUCCESS info) world_fresh))
    = EmptyString.
Proof. vm_compute. split; reflexivity. Qed.

(** C9, as stated, fails: with the left pin given as "GPIO17" and a
    right joint that declares no command interface, [on_init] does not
    return an error: the [invalid_argument] of [std::stoi] reaches the
    caller before the joints are looked at. *)
Lemma on_init_nonconforming_joint_throws :
  passive_joint "right_wheel_joint"
    ∈ HardwareInfo.joints info_bad_pin_passive_joint ∧
  ¬ conforms (passive_joint "right_wheel_joint") ∧
  eval (on_init CallbackReturn.SUCCESS info_bad_pin_passive_joint) world_fresh
    = Thrown invalid_argument ∧
  eval (on_init CallbackReturn.SUCCESS info_bad_pin_passive_joint) world_fresh
    ≠ Returned CallbackReturn.ERROR.
Proof.
  split; [unfold info_bad_pin_passive_joint; cbn; set_solver|].
  split; [intros [(c & Hc & _) _]; discriminate Hc|].
  split; [vm_compute; reflexivity | vm_compute; discriminate].
Qed.

(** C9, amended: [on_init] checks the declared shape of every joint. If
    some joint of the description does not expose exactly one command
    interface named velocity and exactly two state interfaces named
    position and velocity in that order, initialization fails: the
    outcome is never SUCCESS; it is the returned ERROR, except when a
    pin or the resolution does not parse, where the conversion's
    exception is the outcome. *)
Theorem on_init_rejects_nonconforming_joint (base : CallbackReturn.t)
  (info : HardwareInfo.t) (w : World.t) (joint : ComponentInfo.t) :
  joint ∈ HardwareInfo.joints info →
  ¬ conforms joint →
  eval (on_init base info) w ≠ Returned CallbackReturn.SUCCESS ∧
  (eval (on_init base info) w = Returned CallbackReturn.ERROR ∨
   base = CallbackReturn.SUCCESS ∧
   0 <= Daemon.start_reply (World.daemon w) ∧
   ¬ numeric_params_parse info ∧
   ∃ e, eval (on_init base info) w = Thrown e).
Proof.
  intros Hin Hbad.
  assert (check_joints (HardwareInfo.joints info) = CallbackReturn.ERROR) as HE.
  { apply check_joints_error. intros HF.
    rewrite Forall_forall in HF. apply Hbad, HF, Hin. }
  rewrite on_init_eval. unfold on_init_verdict, numeric_params_parse.
  destruct (decide (base ≠ CallbackReturn.SUCCESS)) as [Hb|Hb];
    [split; [discriminate|auto]|].
  apply dec_stable in Hb.
  destruct (Daemon.start_reply (World.daemon w) <? 0) eqn:Hneg;
    [split; [discriminate|auto]|].
  apply Z.ltb_ge in Hneg.
  destruct (Cxx.stoi (param_value "left_wheel_pin" info)); cbn;
    [|split; [discriminate | right; repeat split; [assumption..|tauto|eauto]]].
  destruct (Cxx.stoi (param_value "right_wheel_pin" info)); cbn;
    [|split; [discriminate | right; repeat split; [assumption..|tauto|eauto]]].
  destruct (Cxx.stoul (param_value "enc_counts_per_rev" info)); cbn;
    [|split; [discriminate | right; repeat split; [assumption..|tauto|eauto]]].
  rewrite HE. split; [discriminate | auto].
Qed.

Lemma on_init_rejects_nonconforming_joint_witness :
  eval (on_init CallbackReturn.SUCCESS info_passive_joint) world_fresh
    ≠ Returned CallbackReturn.SUCCESS ∧
  (eval (on_init CallbackReturn.SUCCESS info_passive_joint) world_fresh
     = Returned CallbackReturn.ERROR ∨
   CallbackReturn.SUCCESS = CallbackReturn.SUCCESS ∧
   0 <= Daemon.start_reply (World.daemon world_fresh) ∧
   ¬ numeric_params_parse info_passive_joint ∧
   ∃ e, eval (on_init CallbackReturn.SUCCESS info_passive_joint) world_fresh
          = Thrown e).
Proof.
  apply (on_init_rejects_nonconforming_joint CallbackReturn.SUCCESS
           info_passive_joint world_fresh (passive_joint "right_wheel_joint")).
  - unfold info_passive_joint. cbn. set_solver.
  - intros [(c & Hc & _) _]. discriminate Hc.
Defined.

(** The converse reading of C9: a SUCCESS of [on_init] certifies the
    shape of every declared joint. *)
Lemma on_init_success_joints_conform (base : CallbackReturn.t)
  (info : HardwareInfo.t) (w : World.t) :
  eval (on_init base info) w = Returned CallbackReturn.SUCCESS →
  Forall conforms (HardwareInfo.joints info).
Proof.
  rewrite on_init_eval. unfold on_init_verdict.
  destruct (decide (base ≠ CallbackReturn.SUCCESS)); [discriminate|].
  destruct (Daemon.start_reply (World.daemon w) <? 0); [discriminate|].
  destruct (Cxx.stoi (param_value "left_wheel_pin" info)); [|discriminate].
  destruct (Cxx.stoi (param_value "right_wheel_pin" info)); [|discriminate].
  destruct (Cxx.stoul (param_value "enc_counts_per_rev" info)); [|discriminate].
  intros [= H]. now apply check_joints_success.
Qed.

(** C10: the number of joints is never checked. When the base class
    accepts the description, the daemon connection is made and the
    parameters parse, [on_init] returns SUCCESS for any list of joints
    each of which has the required shape: none, one, two, or more. *)
Theorem on_init_accepts_any_joint_count (base : CallbackReturn.t)
  (info : HardwareInfo.t) (w : World.t) :
  base = CallbackReturn.SUCCESS →
  0 <= Daemon.start_reply (World.daemon w) →
  numeric_params_parse info →
  Forall conforms (HardwareInfo.joints info) →
  eval (on_init base info) w = Returned CallbackReturn.SUCCESS.
Proof.
  intros Hb Hpi (Hl & Hr & Hc) HF.
  rewrite on_init_eval. unfold on_init_verdict.
  destruct (decide (base ≠ CallbackReturn.SUCCESS)); [contradiction|].
  destruct (Daemon.start_reply (World.daemon w) <? 0) eqn:Hneg; [lia|].
  destruct (Cxx.stoi (param_value "left_wheel_pin" info)); [|contradiction].
  destruct (Cxx.stoi (param_value "right_wheel_pin" info)); [|contradiction].
  destruct (Cxx.stoul (param_value "enc_counts_per_rev" info)); [|contradiction].
  f_equal. now apply check_joints_success.
Qed.

Lemma on_init_accepts_any_joint_count_witness :
  eval (on_init CallbackReturn.SUCCESS
          (HardwareInfo.mk (params "17" "27" "20") []))
    world_fresh
    = Returned CallbackReturn.SUCCESS ∧
  eval (on_init CallbackReturn.SUCCESS info_three_joints) world_fresh
    = Returned CallbackReturn.SUCCESS.
Proof.
  split.
  - apply (on_init_accepts_any_joint_count CallbackReturn.SUCCESS
             (HardwareInfo.mk (params "17" "27" "20") []) world_fresh).
    + reflexivity.
    + vm_compute. discriminate.
    + vm_compute. repeat split.
    + constructor.
  - apply (on_init_accepts_any_joint_count CallbackReturn.SUCCESS
             info_three_joints world_fresh).
    + reflexivity.
    + vm_compute. discriminate.
    + vm_compute. repeat split.
    + apply check_joints_success. reflexivity.
Defined.

(* ===================================================================== *)
(** * Configuration and shutdown                                         *)
(* ===================================================================== *)

Lemma pigpio_stop_closes (pi : Z) (d : Daemon.t) :
  pi ∉ Daemon.in_use (pigpio_stop pi d).
Proof. unfold pigpio_stop. cbn. set_solver. Qed.

Lemma pigpio_stop_twice (pi : Z) (d : Daemon.t) :
  pigpio_stop pi (pigpio_stop pi d) = pigpio_stop pi d.
Proof. unfold pigpio_stop. cbn. f_equal. set_solver. Qed.

Lemma pigpio_stop_not_open (pi : Z) (d : Daemon.t) :
  pi ∉ Daemon.in_use d → pigpio_stop pi d = d.
Proof.
  intros H. destruct d as [u m s r l]. unfold pigpio_stop. cbn in *.
  f_equal. set_solver.
Qed.

Lemma answered_in_use (d : Daemon.t) :
  Daemon.in_use (Daemon.answered d) = Daemon.in_use d.
Proof. unfold Daemon.answered. now destruct (Daemon.later d). Qed.

Lemma answered_modes (d : Daemon.t) :
  Daemon.modes (Daemon.answered d) = Daemon.modes d.
Proof. unfold Daemon.answered. now destruct (Daemon.later d). Qed.

(** No [set_mode] opens or closes a connection. *)
Lemma set_mode_in_use (pi gpio mode : Z) (d : Daemon.t) :
  Daemon.in_use (snd (set_mode pi gpio mode d)) = Daemon.in_use d.
Proof.
  unfold set_mode. destruct (decide (pi ∈ Daemon.in_use d)); cbn; [|reflexivity].
  destruct (Daemon.mode_reply d gpio mode =? 0); cbn; apply answered_in_use.
Qed.

(** The control flow of [on_configure]. *)
Lemma on_configure_run (previous_state : State.t) (w : World.t) :
  on_configure previous_state w =
    if negb (fst (left_request w) =? 0)
    then (Returned CallbackReturn.ERROR,
          World.mk (World.hw w) (pigpio_stop (handle w) (snd (left_request w))))
    else if negb (fst (right_request w) =? 0)
    then (Returned CallbackReturn.ERROR,
          World.mk (World.hw w) (pigpio_stop (handle w) (snd (right_request w))))
    else (Returned CallbackReturn.SUCCESS,
          World.mk (World.hw w) (snd (right_request w))).
Proof.
  destruct w as [h d]. unfold on_configure, right_request, left_request, handle.
  run.
  destruct (set_mode _ (Cxx.to_unsigned (Config.left_wheel_pin _)) _ d)
    as [r1 d1]. cbn.
  destruct (r1 =? 0); cbn; [|reflexivity].
  destruct (set_mode _ (Cxx.to_unsigned (Config.right_wheel_pin _)) _ d1)
    as [r2 d2]. cbn.
  destruct (r2 =? 0); reflexivity.
Qed.

Lemma left_request_in_use (w : World.t) :
  Daemon.in_use (snd (left_request w)) = open_connections w.
Proof. unfold left_request. apply set_mode_in_use. Qed.

Lemma right_request_in_use (w : World.t) :
  Daemon.in_use (snd (right_request w)) = open_connections w.
Proof.
  unfold right_request. rewrite set_mode_in_use. apply left_request_in_use.
Qed.

(** What [pigpio_stop] on the handle leaves of the open connections. *)
Lemma pigpio_stop_in_use (pi : Z) (d : Daemon.t) :
  Daemon.in_use (pigpio_stop pi d) = Daemon.in_use d ∖ {[pi]}.
Proof. reflexivity. Qed.

(** C6: if the [set_mode] call of either wheel fails, [on_configure]
    returns ERROR and has released the connection before it returns:
    the handle the component held when the callback was entered is no
    longer among the open connections of the daemon, which are those
    from before without that handle. The component still holds the
    same handle, so the connection it holds is closed. *)
Theorem on_configure_failure_disconnects (previous_state : State.t)
  (w : World.t) :
  fst (left_request w) ≠ 0 ∨ fst (right_request w) ≠ 0 →
  eval (on_configure previous_state) w = Returned CallbackReturn.ERROR ∧
  (handle w ∉ open_connections (exec (on_configure previous_state) w)) ∧
  open_connections (exec (on_configure previous_state) w)
    = open_connections w ∖ {[handle w]} ∧
  handle (exec (on_configure previous_state) w) = handle w ∧
  ¬ connected (exec (on_configure previous_state) w).
Proof.
  intros Hfail. unfold eval, exec, connected, open_connections.
  rewrite on_configure_run.
  pose proof (left_request_in_use w) as HL.
  pose proof (right_request_in_use w) as HR.
  unfold open_connections in HL, HR.
  destruct (fst (left_request w) =? 0) eqn:Hl; cbn.
  - destruct (fst (right_request w) =? 0) eqn:Hr; cbn.
    + apply Z.eqb_eq in Hl, Hr. tauto.
    + rewrite HR. repeat split; set_solver.
  - rewrite HL. repeat split; set_solver.
Qed.

Lemma on_configure_failure_disconnects_witness :
  let w := exec (on_init CallbackReturn.SUCCESS info_nominal)
             (World.mk hw_fresh daemon_refusing_27) in
  handle w ∈ open_connections w ∧
  eval (on_configure State.Unconfigured) w = Returned CallbackReturn.ERROR ∧
  (handle w ∉ open_connections (exec (on_configure State.Unconfigured) w)) ∧
  open_connections (exec (on_configure State.Unconfigured) w)
    = open_connections w ∖ {[handle w]} ∧
  handle (exec (on_configure State.Unconfigured) w) = handle w ∧
  ¬ connected (exec (on_configure State.Unconfigured) w).
Proof.
  split.
  - apply (bool_decide_eq_true_1 _). vm_compute. reflexivity.
  - apply (on_configure_failure_disconnects State.Unconfigured
             (exec (on_init CallbackReturn.SUCCESS info_nominal)
                (World.mk hw_fresh daemon_refusing_27))).
    right. vm_compute. discriminate.
Defined.

(** After a failed [on_configure] the handle is free again: a second
    [on_init] opens a connection anew. *)
Example on_init_after_failed_configure :
  let w0 := World.mk hw_fresh daemon_refusing_27 in
  let w1 := exec (on_init CallbackReturn.SUCCESS info_nominal) w0 in
  let w2 := exec (on_configure State.Unconfigured) w1 in
  let w3 := exec (on_init CallbackReturn.SUCCESS info_nominal) w2 in
  bool_decide (connected w1) = true ∧
  bool_decide (connected w2) = false ∧
  bool_decide (connected w3) = true ∧
  Daemon.modes (World.daemon w2) !! 17 = Some PI_OUTPUT ∧
  Daemon.modes (World.daemon w2) !! 27 = None.
Proof. vm_compute. repeat split. Qed.

(** Every ERROR of [on_configure] comes with the connection released,
    and [on_configure] never throws. *)
Lemma on_configure_error_disconnected (previous_state : State.t) (w : World.t) :
  is_returned (eval (on_configure previous_state) w) ∧
  (eval (on_configure previous_state) w = Returned CallbackReturn.ERROR →
   handle w ∉ open_connections (exec (on_configure previous_state) w)).
Proof.
  unfold eval, exec, open_connections. rewrite on_configure_run.
  repeat match goal with
         | |- context [if ?b then _ else _] => destruct b
         end; cbn; split; try exact I; try discriminate;
    intros _; apply pigpio_stop_closes.
Qed.

(** C7: [on_shutdown] returns SUCCESS from every world and with every
    previous lifecycle state, and it releases the daemon link
    unconditionally: the handle the component held when the callback
    was entered is not among the open connections afterwards, which are
    those from before without that handle (the same ones when the
    handle was not open). The component is untouched, so the connection
    it holds is closed; calling [on_shutdown] a second time returns
    SUCCESS again and changes nothing. *)
Theorem on_shutdown_total_idempotent (previous_state previous_state' : State.t)
  (w : World.t) :
  eval (on_shutdown previous_state) w = Returned CallbackReturn.SUCCESS ∧
  (handle w ∉ open_connections (exec (on_shutdown previous_state) w)) ∧
  open_connections (exec (on_shutdown previous_state) w)
    = open_connections w ∖ {[handle w]} ∧
  World.hw (exec (on_shutdown previous_state) w) = World.hw w ∧
  ¬ connected (exec (on_shutdown previous_state) w) ∧
  eval (on_shutdown previous_state') (exec (on_shutdown previous_state) w)
    = Returned CallbackReturn.SUCCESS ∧
  exec (on_shutdown previous_state') (exec (on_shutdown previous_state) w)
    = exec (on_shutdown previous_state) w.
Proof.
  destruct w as [h d].
  unfold eval, exec, on_shutdown, connected, open_connections, handle. run.
  repeat split.
  - apply pigpio_stop_closes.
  - apply pigpio_stop_closes.
  - now rewrite pigpio_stop_twice.
Qed.

(** A component that was connected is disconnected by [on_shutdown],
    and the other connections of the daemon stay open. *)
Example on_shutdown_after_on_init :
  let w0 := World.mk hw_fresh
              (Daemon.mk {[5]} ∅ 0 (λ _ _, 0) []) in
  let w1 := exec (on_init CallbackReturn.SUCCESS info_nominal) w0 in
  let w2 := exec (on_shutdown State.Inactive) w1 in
  handle w1 = 0 ∧
  bool_decide (0 ∈ open_connections w1) = true ∧
  bool_decide (0 ∈ open_connections w2) = false ∧
  bool_decide (5 ∈ open_connections w2) = true.
Proof. vm_compute. repeat split. Qed.

(** Shutting down a component that holds no open connection leaves the
    world as it is. *)
Lemma on_shutdown_never_connected (previous_state : State.t) (w : World.t) :
  ¬ connected w → on_shutdown previous_state w = (Returned CallbackReturn.SUCCESS, w).
Proof.
  destruct w as [h d]. unfold on_shutdown, connected. run. intros H.
  now rewrite pigpio_stop_not_open.
Qed.

Example on_shutdown_before_on_init :
  on_shutdown State.Unconfigured world_fresh
    = (Returned CallbackReturn.SUCCESS, world_fresh).
Proof.
  apply on_shutdown_never_connected. unfold connected. cbn. set_solver.
Qed.

(** [on_activate] and [on_deactivate] do nothing and succeed. *)
Lemma on_activate_run (previous_state : State.t) (w : World.t) :
  on_activate previous_state w = (Returned CallbackReturn.SUCCESS, w).
Proof. reflexivity. Qed.

Lemma on_deactivate_run (previous_state : State.t) (w : World.t) :
  on_deactivate previous_state w = (Returned CallbackReturn.SUCCESS, w).
Proof. reflexivity. Qed.

(* ===================================================================== *)
(** * The periodic entry points                                          *)
(* ===================================================================== *)

Lemma read_run (time : Time.t) (period : Duration.t) (w : World.t) :
  read time period w =
    (Returned return_type.OK,
     World.mk
       (DiffBotSystemHardware.mk
          (DiffBotSystemHardware.info_ (World.hw w))
          (DiffBotSystemHardware.cfg_ (World.hw w))
          (read_wheel (Duration.seconds period) (wheel Left w))
          (read_wheel (Duration.seconds period) (wheel Right w)))
       (World.daemon w)).
Proof. destruct w as [[i c l r] d]. reflexivity. Qed.

Lemma wheel_after_read (time : Time.t) (period : Duration.t) (w : World.t)
  (s : side) :
  wheel s (exec (read time period) w)
  = read_wheel (Duration.seconds period) (wheel s w).
Proof. unfold exec. rewrite read_run. now destruct s. Qed.

(** What [read] publishes as velocity: the difference between the new
    position and the single-precision image of the previous one, over
    the elapsed time. *)
Lemma read_velocity (time : Time.t) (period : Duration.t) (w : World.t)
  (s : side) :
  Wheel.vel (wheel s (exec (read time period) w))
  = ((Wheel.pos (wheel s (exec (read time period) w))
      - Cxx.to_binary32 (Wheel.pos (wheel s w)))
     / Duration.seconds period)%float.
Proof. rewrite wheel_after_read. reflexivity. Qed.

(** So the published velocity is the backward difference whenever the
    previous position is a single-precision number. *)
Lemma read_velocity_single_precision (time : Time.t) (period : Duration.t)
  (w : World.t) (s : side) :
  Cxx.to_binary32 (Wheel.pos (wheel s w)) = Wheel.pos (wheel s w) →
  Wheel.vel (wheel s (exec (read time period) w))
  = ((Wheel.pos (wheel s (exec (read time period) w)) - Wheel.pos (wheel s w))
     / Duration.seconds period)%float.
Proof. intros H. now rewrite read_velocity, H. Qed.

(** The example of the spec: from position 0 to position π in half a
    second, the velocity is 2π. *)
Example read_velocity_zero_to_pi :
  let w0 := with_ticks 1
              (exec (on_init CallbackReturn.SUCCESS
                       (HardwareInfo.mk (params "17" "27" "2") two_wheels))
                 world_fresh) in
  let w1 := exec (read time0 (ms 500)) w0 in
  Wheel.pos (wheel Left w0) = 0%float ∧
  Wheel.pos (wheel Left w1) = Cxx.M_PI ∧
  Duration.seconds (ms 500) = 0.5%float ∧
  Wheel.vel (wheel Left w1) = (2 * Cxx.M_PI)%float.
Proof. vm_compute. repeat split. Qed.

(** C4, at a failing input: a wheel with 20 counts per revolution whose
    encoder stands at 1000000 ticks, read twice 10 ms apart. Between the
    two cycles the position does not change, the backward difference of
    the positions is 0, and the velocity published by the second cycle
    is above 1.5 rad/s: the previous position went through the [float]
    variable [pos_prev] and lost its low bits there. *)
Theorem read_velocity_of_resting_wheel :
  let w0 := with_ticks 1000000
              (exec (on_init CallbackReturn.SUCCESS info_nominal) world_fresh) in
  let w1 := exec (read time0 (ms 10)) w0 in
  let w2 := exec (read time0 (ms 10)) w1 in
  let p0 := Wheel.pos (wheel Left w1) in
  let p1 := Wheel.pos (wheel Left w2) in
  p0 = 0x1.32cbd0fba43a7p+18%float ∧
  p1 = p0 ∧
  ((p1 - p0) / Duration.seconds (ms 10))%float = 0%float ∧
  Wheel.vel (wheel Left w2) = 0x1.89309b4fp+0%float ∧
  (1.5 <? Wheel.vel (wheel Left w2))%float = true ∧
  (1.5 <? Wheel.vel (wheel Right w2))%float = true.
Proof. vm_compute. repeat split. Qed.

(** C5: after a read cycle the position of each wheel is the value
    computed from the tick count [T] and the resolution [N] alone,
    T / N * 2π in [double] arithmetic, for every sign of [T]; the
    position, velocity and command the wheel held before the cycle do
    not enter into it. *)
Theorem read_position_from_ticks (time : Time.t) (period : Duration.t)
  (w : World.t) (s : side) (N T : Z) :
  0 < N →
  Wheel.counts_per_rev (wheel s w) = N →
  Wheel.enc (wheel s w) = T →
  Wheel.pos (wheel s (exec (read time period) w))
    = (Cxx.to_double T / Cxx.to_double N * (2 * Cxx.M_PI))%float ∧
  ∀ w' : World.t,
    Wheel.counts_per_rev (wheel s w') = N →
    Wheel.enc (wheel s w') = T →
    Wheel.pos (wheel s (exec (read time period) w'))
    = Wheel.pos (wheel s (exec (read time period) w)).
Proof.
  intros _ HN HT. split.
  - rewrite wheel_after_read. unfold read_wheel, Wheel.calc_enc_angle. cbn.
    now rewrite HN, HT.
  - intros w' HN' HT'. rewrite !wheel_after_read.
    unfold read_wheel, Wheel.calc_enc_angle. cbn.
    now rewrite HN, HT, HN', HT'.
Qed.

Lemma read_position_from_ticks_witness :
  let w := with_ticks (-5)
             (exec (on_init CallbackReturn.SUCCESS info_nominal) world_fresh) in
  Wheel.pos (wheel Right (exec (read time0 (ms 10)) w))
    = (Cxx.to_double (-5) / Cxx.to_double 20 * (2 * Cxx.M_PI))%float ∧
  ∀ w' : World.t,
    Wheel.counts_per_rev (wheel Right w') = 20 →
    Wheel.enc (wheel Right w') = -5 →
    Wheel.pos (wheel Right (exec (read time0 (ms 10)) w'))
    = Wheel.pos (wheel Right (exec (read time0 (ms 10)) w)).
Proof.
  apply (read_position_from_ticks time0 (ms 10)
           (with_ticks (-5)
              (exec (on_init CallbackReturn.SUCCESS info_nominal) world_fresh))
           Right 20 (-5)).
  - lia.
  - vm_compute. reflexivity.
  - vm_compute. reflexivity.
Defined.

(** A quarter turn forwards and backwards. *)
Example read_position_quarter_turn :
  let w := exec (on_init CallbackReturn.SUCCESS info_nominal) world_fresh in
  Wheel.pos (wheel Left (exec (read time0 (ms 10)) (with_ticks 5 w)))
    = 0x1.921fb54442d18p+0%float ∧
  Wheel.pos (wheel Left (exec (read time0 (ms 10)) (with_ticks (-5) w)))
    = (-0x1.921fb54442d18p+0)%float.
Proof. vm_compute. split; reflexivity. Qed.

(** [read] always reports OK and touches neither the daemon nor the
    configuration nor the tick counts. *)
Lemma read_frame (time : Time.t) (period : Duration.t) (w : World.t) :
  eval (read time period) w = Returned return_type.OK ∧
  World.daemon (exec (read time period) w) = World.daemon w ∧
  DiffBotSystemHardware.cfg_ (World.hw (exec (read time period) w))
    = DiffBotSystemHardware.cfg_ (World.hw w) ∧
  ∀ s, Wheel.enc (wheel s (exec (read time period) w)) = Wheel.enc (wheel s w).
Proof.
  unfold eval, exec. rewrite read_run. cbn. repeat split. now intros [].
Qed.

(** C8: [write] is a no-op. Whatever the two commands the controller
    stored through the exported command interfaces, and whatever the
    time and the period, [write] returns OK, throws nothing and leaves
    the world as it was; in particular every exported state value reads
    the same after the call. *)
Theorem write_is_no_op (time : Time.t) (period : Duration.t) (w : World.t)
  (cmd_left cmd_right : float) :
  let commanded :=
    World.mk
      (DiffBotSystemHardware.set_wheel_right_
         (Wheel.set_cmd cmd_right (wheel Right w))
         (DiffBotSystemHardware.set_wheel_left_
            (Wheel.set_cmd cmd_left (wheel Left w)) (World.hw w)))
      (World.daemon w) in
  write time period commanded = (Returned return_type.OK, commanded) ∧
  Forall
    (λ i, StateInterface.get_value i (exec (write time period) commanded)
          = StateInterface.get_value i w)
    (export_state_interfaces (World.hw w)).
Proof.
  cbn. split; [reflexivity|].
  unfold export_state_interfaces. repeat constructor.
Qed.

(** The world in the statement of C8 is the one the controller produces
    by writing through the two exported command interfaces. *)
Lemma commands_through_interfaces (w : World.t) (cmd_left cmd_right : float) :
  match export_command_interfaces (World.hw w) with
  | [l; r] =>
      CommandInterface.set_value r cmd_right
        (CommandInterface.set_value l cmd_left w)
      = World.mk
          (DiffBotSystemHardware.set_wheel_right_
             (Wheel.set_cmd cmd_right (wheel Right w))
             (DiffBotSystemHardware.set_wheel_left_
                (Wheel.set_cmd cmd_left (wheel Left w)) (World.hw w)))
          (World.daemon w)
  | _ => False
  end.
Proof. reflexivity. Qed.

(* ===================================================================== *)
(** * Further properties of initialization                               *)
(* ===================================================================== *)

(** X1: when the base class rejects the description, [on_init] returns
    ERROR at once: the description is stored, and nothing else happened;
    the daemon was not contacted and the configuration and the wheels
    are as before. *)
Theorem on_init_base_failure (base : CallbackReturn.t) (info : HardwareInfo.t)
  (w : World.t) :
  base ≠ CallbackReturn.SUCCESS →
  on_init base info w = (Returned CallbackReturn.ERROR, with_info info w).
Proof.
  intros Hb. unfold on_init, SystemInterface_on_init, with_info.
  destruct w as [h d]. run.
  destruct (decide (base ≠ CallbackReturn.SUCCESS)); [reflexivity|contradiction].
Qed.

Lemma on_init_base_failure_witness :
  on_init CallbackReturn.FAILURE info_nominal world_fresh
  = (Returned CallbackReturn.ERROR, with_info info_nominal world_fresh).
Proof.
  apply (on_init_base_failure CallbackReturn.FAILURE info_nominal world_fresh).
  discriminate.
Defined.

(** X2: when [pigpio_start] answers with a negative code, [on_init]
    returns ERROR having stored the description and the code in
    [cfg_.pi] and nothing else: no parameter was read (no key was
    inserted into the parameters), the wheels are not set up, the other
    members of [cfg_] keep their values and no connection was opened. *)
Theorem on_init_connection_failure (base : CallbackReturn.t)
  (info : HardwareInfo.t) (w : World.t) :
  base = CallbackReturn.SUCCESS →
  Daemon.start_reply (World.daemon w) < 0 →
  on_init base info w =
    (Returned CallbackReturn.ERROR,
     World.mk
       (DiffBotSystemHardware.mk info
          (Config.set_pi (Daemon.start_reply (World.daemon w))
             (DiffBotSystemHardware.cfg_ (World.hw w)))
          (wheel Left w) (wheel Right w))
       (World.daemon w)).
Proof.
  intros -> Hneg. unfold on_init, SystemInterface_on_init.
  destruct w as [[i c l r] d]. run.
  destruct (decide (CallbackReturn.SUCCESS ≠ CallbackReturn.SUCCESS));
    [congruence|]. cbn in *.
  unfold pigpio_start.
  destruct (0 <=? Daemon.start_reply d) eqn:Hle; [lia|]. cbn.
  destruct (Daemon.start_reply d <? 0) eqn:Hlt; [reflexivity|lia].
Qed.

Lemma on_init_connection_failure_witness :
  let w := World.mk hw_fresh (Daemon.mk ∅ ∅ (-2003) (λ _ _, 0) []) in
  on_init CallbackReturn.SUCCESS info_nominal w =
    (Returned CallbackReturn.ERROR,
     World.mk
       (DiffBotSystemHardware.mk info_nominal
          (Config.set_pi (Daemon.start_reply (World.daemon w))
             (DiffBotSystemHardware.cfg_ (World.hw w)))
          (wheel Left w) (wheel Right w))
       (World.daemon w)).
Proof.
  apply (on_init_connection_failure CallbackReturn.SUCCESS info_nominal
           (World.mk hw_fresh (Daemon.mk ∅ ∅ (-2003) (λ _ _, 0) []))).
  - reflexivity.
  - cbn. lia.
Defined.

(** Past the base class, the daemon and the handle that [on_init] leaves
    are those of [pigpio_start], on every path, also when a conversion
    throws. *)
Lemma on_init_daemon_handle (base : CallbackReturn.t) (info : HardwareInfo.t)
  (w : World.t) :
  base = CallbackReturn.SUCCESS →
  World.daemon (exec (on_init base info) w)
    = snd (pigpio_start (World.daemon w)) ∧
  handle (exec (on_init base info) w) = Daemon.start_reply (World.daemon w).
Proof.
  intros ->. unfold exec, handle, on_init, SystemInterface_on_init.
  destruct w as [[i c l r] d]. run.
  destruct (decide (CallbackReturn.SUCCESS ≠ CallbackReturn.SUCCESS));
    [congruence|]. cbn.
  destruct (pigpio_start d) as [pi d'] eqn:Hstart. cbn.
  assert (pi = Daemon.start_reply d) as ->
    by (rewrite <- pigpio_start_reply, Hstart; reflexivity).
  destruct (Daemon.start_reply d <? 0); [split; reflexivity|].
  rewrite hardware_parameter_run; cbn.
  rewrite hardware_parameter_run; cbn.
  rewrite hardware_parameter_run; cbn.
  destruct (Cxx.stoi _); [|split; reflexivity].
  cbn. rewrite hardware_parameter_run; cbn.
  destruct (Cxx.stoi _); [|split; reflexivity].
  cbn. rewrite hardware_parameter_run; cbn.
  destruct (Cxx.stoul _); split; reflexivity.
Qed.

(** X3: [on_init] never closes a connection. Every connection open
    before the call is open after it, and once [pigpio_start] has
    answered with a handle that handle is held in [cfg_.pi] and open
    when [on_init] ends, whether it returns SUCCESS, returns ERROR or
    lets an exception through. *)
Theorem on_init_never_disconnects (base : CallbackReturn.t)
  (info : HardwareInfo.t) (w : World.t) :
  base = CallbackReturn.SUCCESS →
  0 <= Daemon.start_reply (World.daemon w) →
  open_connections w ⊆ open_connections (exec (on_init base info) w) ∧
  handle (exec (on_init base info) w) = Daemon.start_reply (World.daemon w) ∧
  connected (exec (on_init base info) w).
Proof.
  intros Hb Hpi.
  destruct (on_init_daemon_handle base info w Hb) as [Hd Hh].
  unfold open_connections, connected. fold (handle (exec (on_init base info) w)).
  rewrite Hd, Hh. unfold pigpio_start.
  destruct (0 <=? Daemon.start_reply (World.daemon w)) eqn:Hle; [|lia].
  cbn. repeat split; set_solver.
Qed.

Lemma on_init_never_disconnects_witness :
  open_connections world_fresh
    ⊆ open_connections (exec (on_init CallbackReturn.SUCCESS info_bad_pin) world_fresh) ∧
  handle (exec (on_init CallbackReturn.SUCCESS info_bad_pin) world_fresh)
    = Daemon.start_reply (World.daemon world_fresh) ∧
  connected (exec (on_init CallbackReturn.SUCCESS info_bad_pin) world_fresh).
Proof.
  apply (on_init_never_disconnects CallbackReturn.SUCCESS info_bad_pin
           world_fresh).
  - reflexivity.
  - cbn. lia.
Defined.






(** When [on_init] returns after the connection was made, the three
    numbers were parsed and the world is the fully set up one. *)
Lemma on_init_returned_parsed (base : CallbackReturn.t)
  (info : HardwareInfo.t) (w : World.t) (r : CallbackReturn.t) :
  base = CallbackReturn.SUCCESS →
  0 <= Daemon.start_reply (World.daemon w) →
  eval (on_init base info) w = Returned r →
  ∃ a b c : Z,
    Cxx.stoi (param_value "left_wheel_pin" info) = Returned a ∧
    Cxx.stoi (param_value "right_wheel_pin" info) = Returned b ∧
    Cxx.stoul (param_value "enc_counts_per_rev" info) = Returned c ∧
    exec (on_init base info) w = on_init_world info a b c w.
Proof.
  intros Hb Hpi Hr. rewrite on_init_eval in Hr. unfold on_init_verdict in Hr.
  destruct (decide (base ≠ CallbackReturn.SUCCESS)); [contradiction|].
  destruct (Daemon.start_reply (World.daemon w) <? 0) eqn:Hneg; [lia|].
  destruct (Cxx.stoi (param_value "left_wheel_pin" info)) as [a|] eqn:Ha;
    [|discriminate].
  destruct (Cxx.stoi (param_value "right_wheel_pin" info)) as [b|] eqn:Hb';
    [|discriminate].
  destruct (Cxx.stoul (param_value "enc_counts_per_rev" info)) as [c|] eqn:Hc;
    [|discriminate].
  exists a, b, c. unfold exec.
  rewrite (on_init_run_parsed _ _ _ a b c) by assumption. auto.
Qed.



Lemma touch_subseteq (k : string) (i : HardwareInfo.t) :
  HardwareInfo.hardware_parameters i
    ⊆ HardwareInfo.hardware_parameters (touch k i).
Proof.
  unfold touch.
  destruct (HardwareInfo.hardware_parameters i !! k) eqn:E; [reflexivity|].
  cbn. now apply insert_subseteq.
Qed.

Lemma touch_present (k : string) (i : HardwareInfo.t) :
  is_Some (HardwareInfo.hardware_parameters (touch k i) !! k).
Proof.
  unfold touch.
  destruct (HardwareInfo.hardware_parameters i !! k) eqn:E.
  - rewrite E. eauto.
  - cbn. rewrite lookup_insert_eq. eauto.
Qed.

Lemma touch_keeps_present (k k' : string) (i : HardwareInfo.t) :
  is_Some (HardwareInfo.hardware_parameters i !! k) →
  is_Some (HardwareInfo.hardware_parameters (touch k' i) !! k).
Proof.
  intros [v Hv]. exists v.
  eapply lookup_weaken; [exact Hv | apply touch_subseteq].
Qed.

(** X5: reading the parameters changes them. When [on_init] returns
    after the connection was made, each of the five keys it read is
    present in [info_.hardware_parameters], the absent ones with an
    empty string; the entries of the description handed in are all
    still there, the string found under any key (empty when absent) is
    the same as before, and the joints are untouched. *)
Theorem on_init_inserts_missing_keys (base : CallbackReturn.t)
  (info : HardwareInfo.t) (w : World.t) (r : CallbackReturn.t) :
  base = CallbackReturn.SUCCESS →
  0 <= Daemon.start_reply (World.daemon w) →
  eval (on_init base info) w = Returned r →
  let info' := DiffBotSystemHardware.info_ (World.hw (exec (on_init base info) w)) in
  Forall (λ k, is_Some (HardwareInfo.hardware_parameters info' !! k))
    ["left_wheel_name"; "right_wheel_name"; "left_wheel_pin";
     "right_wheel_pin"; "enc_counts_per_rev"] ∧
  HardwareInfo.hardware_parameters info
    ⊆ HardwareInfo.hardware_parameters info' ∧
  (∀ k, param_value k info' = param_value k info) ∧
  HardwareInfo.joints info' = HardwareInfo.joints info.
Proof.
  intros Hb Hpi Hr.
  destruct (on_init_returned_parsed base info w r Hb Hpi Hr)
    as (a & b & c & _ & _ & _ & ->). cbn.
  unfold touched. repeat split.
  - repeat constructor;
      repeat first [ apply touch_present | apply touch_keeps_present ].
  - repeat (etrans; [|apply touch_subseteq]). reflexivity.
  - intros k. now rewrite !param_value_touch.
  - now rewrite !joints_touch.
Qed.

Lemma on_init_inserts_missing_keys_witness :
  let info :=
    HardwareInfo.mk
      (<["left_wheel_pin" := "17"]>
         (<["right_wheel_pin" := "27"]> (<["enc_counts_per_rev" := "20"]> ∅)))
      two_wheels in
  let info' :=
    DiffBotSystemHardware.info_
      (World.hw (exec (on_init CallbackReturn.SUCCESS info) world_fresh)) in
  Forall (λ k, is_Some (HardwareInfo.hardware_parameters info' !! k))
    ["left_wheel_name"; "right_wheel_name"; "left_wheel_pin";
     "right_wheel_pin"; "enc_counts_per_rev"] ∧
  HardwareInfo.hardware_parameters info
    ⊆ HardwareInfo.hardware_parameters info' ∧
  (∀ k, param_value k info' = param_value k info) ∧
  HardwareInfo.joints info' = HardwareInfo.joints info.
Proof.
  apply (on_init_inserts_missing_keys CallbackReturn.SUCCESS
           (HardwareInfo.mk
              (<["left_wheel_pin" := "17"]>
                 (<["right_wheel_pin" := "27"]>
                    (<["enc_counts_per_rev" := "20"]> ∅)))
              two_wheels)
           world_fresh CallbackReturn.SUCCESS).
  - reflexivity.
  - cbn. lia.
  - vm_compute. reflexivity.
Defined.

Lemma check_joint_rename (f : string → string) (joint : ComponentInfo.t) :
  check_joint (rename_joint f joint) = check_joint joint.
Proof. reflexivity. Qed.

Lemma check_joints_rename (f : string → string) (joints : list ComponentInfo.t) :
  check_joints (map (rename_joint f) joints) = check_joints joints.
Proof.
  induction joints as [|j js IH]; cbn; [reflexivity|].
  rewrite check_joint_rename. now rewrite IH.
Qed.

(** X6: the names of the joints play no part in the verdict of
    [on_init]: renaming the joints in any way leaves the outcome as it
    was. In particular nothing ties the joints to the two wheel names
    of the parameters. *)
Theorem on_init_ignores_joint_names (f : string → string)
  (base : CallbackReturn.t) (info : HardwareInfo.t) (w : World.t) :
  eval (on_init base (rename_joints f info)) w = eval (on_init base info) w.
Proof.
  rewrite !on_init_eval. unfold on_init_verdict, rename_joints, param_value.
  cbn. now rewrite check_joints_rename.
Qed.

(* ===================================================================== *)
(** * Further properties of configuration and shutdown                   *)
(* ===================================================================== *)

(** A [set_mode] that answers 0 was sent over an open connection, and
    the pin has the mode afterwards, the other pins the mode they had. *)
Lemma set_mode_ok (pi gpio mode : Z) (d : Daemon.t) :
  fst (set_mode pi gpio mode d) = 0 →
  pi ∈ Daemon.in_use d ∧
  Daemon.modes (snd (set_mode pi gpio mode d))
  = <[gpio := mode]> (Daemon.modes d).
Proof.
  unfold set_mode. destruct (decide (pi ∈ Daemon.in_use d)); cbn.
  - destruct (Daemon.mode_reply d gpio mode =? 0) eqn:E; cbn.
    + rewrite answered_modes. auto.
    + apply Z.eqb_neq in E. intros H. contradiction.
  - unfold pigif_unconnected_pi. discriminate.
Qed.

(** A [set_mode] that fails changes no mode; when it went over an open
    connection the daemon has answered one request, otherwise none. *)
Lemma set_mode_failed (pi gpio mode : Z) (d : Daemon.t) :
  fst (set_mode pi gpio mode d) ≠ 0 →
  snd (set_mode pi gpio mode d)
  = (if bool_decide (pi ∈ Daemon.in_use d) then Daemon.answered d else d) ∧
  Daemon.modes (snd (set_mode pi gpio mode d)) = Daemon.modes d.
Proof.
  unfold set_mode. destruct (decide (pi ∈ Daemon.in_use d)) as [Hin|Hin]; cbn.
  - rewrite (bool_decide_eq_true_2 _ Hin).
    destruct (Daemon.mode_reply d gpio mode =? 0) eqn:E; cbn.
    + apply Z.eqb_eq in E. intros H. contradiction.
    + rewrite answered_modes. auto.
  - rewrite (bool_decide_eq_false_2 _ Hin). auto.
Qed.

(** X7: when the daemon accepts both [set_mode] requests,
    [on_configure] returns SUCCESS; the two pins, as the daemon
    receives them (the [int] of [cfg_] converted to [unsigned]), are
    outputs and every other pin has the mode it had; the connection
    stays open, the set of open connections is unchanged and so is the
    component. *)
Theorem on_configure_success (previous_state : State.t) (w : World.t) :
  let cfg := DiffBotSystemHardware.cfg_ (World.hw w) in
  let l := Cxx.to_unsigned (Config.left_wheel_pin cfg) in
  let r := Cxx.to_unsigned (Config.right_wheel_pin cfg) in
  fst (left_request w) = 0 →
  fst (right_request w) = 0 →
  eval (on_configure previous_state) w = Returned CallbackReturn.SUCCESS ∧
  mode_of l (exec (on_configure previous_state) w) = Some PI_OUTPUT ∧
  mode_of r (exec (on_configure previous_state) w) = Some PI_OUTPUT ∧
  (∀ g, g ≠ l → g ≠ r →
        mode_of g (exec (on_configure previous_state) w) = mode_of g w) ∧
  connected (exec (on_configure previous_state) w) ∧
  open_connections (exec (on_configure previous_state) w) = open_connections w ∧
  World.hw (exec (on_configure previous_state) w) = World.hw w.
Proof.
  intros cfg l r Hl Hr.
  pose proof (right_request_in_use w) as HR.
  destruct (set_mode_ok _ _ _ _ Hl) as (Hin & Hm1).
  destruct (set_mode_ok _ _ _ _ Hr) as (_ & Hm2).
  fold (left_request w) in Hm1, Hm2. fold (right_request w) in Hm2.
  fold cfg in Hm1, Hm2. fold l in Hm1. fold r in Hm2.
  unfold eval, exec, mode_of, connected, open_connections in *.
  rewrite on_configure_run, Hl, Hr. cbn. rewrite Hm2, Hm1, HR.
  repeat split; try assumption.
  - rewrite lookup_insert. case_decide; [reflexivity|].
    apply lookup_insert_eq.
  - apply lookup_insert_eq.
  - intros g Hgl Hgr. rewrite !lookup_insert_ne by congruence. reflexivity.
Qed.

Lemma on_configure_success_witness :
  let w := exec (on_init CallbackReturn.SUCCESS info_nominal) world_fresh in
  eval (on_configure State.Unconfigured) w = Returned CallbackReturn.SUCCESS ∧
  mode_of 17 (exec (on_configure State.Unconfigured) w) = Some PI_OUTPUT ∧
  mode_of 27 (exec (on_configure State.Unconfigured) w) = Some PI_OUTPUT ∧
  (∀ g, g ≠ 17 → g ≠ 27 →
        mode_of g (exec (on_configure State.Unconfigured) w) = mode_of g w) ∧
  connected (exec (on_configure State.Unconfigured) w) ∧
  open_connections (exec (on_configure State.Unconfigured) w)
    = open_connections w ∧
  World.hw (exec (on_configure State.Unconfigured) w) = World.hw w.
Proof.
  apply (on_configure_success State.Unconfigured
           (exec (on_init CallbackReturn.SUCCESS info_nominal) world_fresh)).
  - vm_compute. reflexivity.
  - vm_compute. reflexivity.
Defined.

(** A negative pin passes [on_init] and reaches the daemon as
    2^32 + pin: for the pin -1 a daemon that checks the pin number is
    asked for pin 4294967295 and refuses, and [on_configure] fails. *)
Example on_configure_negative_pin :
  let w := exec (on_init CallbackReturn.SUCCESS info_negative_pin)
             (World.mk hw_fresh daemon_checking_gpio) in
  eval (on_init CallbackReturn.SUCCESS info_negative_pin)
    (World.mk hw_fresh daemon_checking_gpio)
    = Returned CallbackReturn.SUCCESS ∧
  Config.left_wheel_pin (DiffBotSystemHardware.cfg_ (World.hw w)) = -1 ∧
  Cxx.to_unsigned (-1) = 4294967295 ∧
  eval (on_configure State.Unconfigured) w = Returned CallbackReturn.ERROR ∧
  mode_of 4294967295
    (exec (on_configure State.Unconfigured)
       (exec (on_init CallbackReturn.SUCCESS info_negative_pin) world_fresh))
    = Some PI_OUTPUT.
Proof. vm_compute. repeat split. Qed.

(** X8: when the [set_mode] of the left pin fails, the right pin is
    never sent to the daemon: [on_configure] returns ERROR, the daemon
    it leaves is the one that answered the left request (one request,
    when the connection was open) with the connection closed, and no
    pin has changed its mode. *)
Theorem on_configure_left_failure (previous_state : State.t) (w : World.t) :
  fst (left_request w) ≠ 0 →
  on_configure previous_state w =
    (Returned CallbackReturn.ERROR,
     World.mk (World.hw w)
       (pigpio_stop (handle w)
          (if bool_decide (connected w)
           then Daemon.answered (World.daemon w) else World.daemon w))) ∧
  ∀ g, mode_of g (exec (on_configure previous_state) w) = mode_of g w.
Proof.
  intros Hl. destruct (set_mode_failed _ _ _ _ Hl) as (Hd & Hm).
  fold (left_request w) in Hd, Hm. fold (connected w) in Hd.
  unfold exec, mode_of. rewrite on_configure_run.
  apply Z.eqb_neq in Hl. rewrite Hl. cbn.
  split; [rewrite Hd; reflexivity|]. intros g. now rewrite Hm.
Qed.

Lemma on_configure_left_failure_witness :
  let w := exec (on_init CallbackReturn.SUCCESS info_nominal)
             (World.mk hw_fresh daemon_refusing_17) in
  bool_decide (connected w) = true ∧
  Daemon.mode_reply (World.daemon w) 27 PI_OUTPUT = 0 ∧
  Daemon.later (World.daemon w) = [refuse_17; refuse_17] ∧
  Daemon.later (World.daemon (exec (on_configure State.Unconfigured) w))
    = [refuse_17] ∧
  on_configure State.Unconfigured w =
    (Returned CallbackReturn.ERROR,
     World.mk (World.hw w)
       (pigpio_stop (handle w)
          (if bool_decide (connected w)
           then Daemon.answered (World.daemon w) else World.daemon w))) ∧
  ∀ g, mode_of g (exec (on_configure State.Unconfigured) w) = mode_of g w.
Proof.
  split; [vm_compute; reflexivity|]. split; [vm_compute; reflexivity|].
  split; [reflexivity|]. split; [reflexivity|].
  apply (on_configure_left_failure State.Unconfigured
           (exec (on_init CallbackReturn.SUCCESS info_nominal)
              (World.mk hw_fresh daemon_refusing_17))).
  vm_compute. discriminate.
Defined.

(** X9: when the left pin is accepted and the right one refused,
    [on_configure] returns ERROR and releases the connection: the
    handle is no longer among the open connections. The left pin, as
    the daemon received it, stays an output: the mode set by the first
    request is not taken back. Every other pin has the mode it had. *)
Theorem on_configure_right_failure (previous_state : State.t) (w : World.t) :
  let l := Cxx.to_unsigned
             (Config.left_wheel_pin (DiffBotSystemHardware.cfg_ (World.hw w))) in
  fst (left_request w) = 0 →
  fst (right_request w) ≠ 0 →
  eval (on_configure previous_state) w = Returned CallbackReturn.ERROR ∧
  (handle w ∉ open_connections (exec (on_configure previous_state) w)) ∧
  open_connections (exec (on_configure previous_state) w)
    = open_connections w ∖ {[handle w]} ∧
  mode_of l (exec (on_configure previous_state) w) = Some PI_OUTPUT ∧
  ∀ g, g ≠ l → mode_of g (exec (on_configure previous_state) w) = mode_of g w.
Proof.
  intros l Hl Hr.
  pose proof (right_request_in_use w) as HR.
  destruct (set_mode_ok _ _ _ _ Hl) as (Hin & Hm1).
  destruct (set_mode_failed _ _ _ _ Hr) as (_ & Hm2).
  fold (left_request w) in Hm1, Hm2. fold (right_request w) in Hm2.
  fold l in Hm1.
  unfold eval, exec, mode_of, open_connections in *.
  rewrite on_configure_run, Hl. apply Z.eqb_neq in Hr. rewrite Hr. cbn.
  rewrite Hm2, Hm1, HR.
  repeat split; try set_solver.
  - apply lookup_insert_eq.
  - intros g Hg. now rewrite lookup_insert_ne by congruence.
Qed.

Lemma on_configure_right_failure_witness :
  let w := exec (on_init CallbackReturn.SUCCESS info_nominal)
             (World.mk hw_fresh daemon_refusing_27) in
  eval (on_configure State.Unconfigured) w = Returned CallbackReturn.ERROR ∧
  (handle w ∉ open_connections (exec (on_configure State.Unconfigured) w)) ∧
  open_connections (exec (on_configure State.Unconfigured) w)
    = open_connections w ∖ {[handle w]} ∧
  mode_of 17 (exec (on_configure State.Unconfigured) w) = Some PI_OUTPUT ∧
  ∀ g, g ≠ 17 → mode_of g (exec (on_configure State.Unconfigured) w) = mode_of g w.
Proof.
  apply (on_configure_right_failure State.Unconfigured
           (exec (on_init CallbackReturn.SUCCESS info_nominal)
              (World.mk hw_fresh daemon_refusing_27))).
  - vm_compute. reflexivity.
  - vm_compute. discriminate.
Defined.

(** The same with both wheels on one pin: the daemon accepts the pin at
    the first request and refuses it at the second. *)
Example on_configure_right_failure_same_pin :
  let w := exec (on_init CallbackReturn.SUCCESS info_same_pin)
             (World.mk hw_fresh daemon_accepting_once) in
  fst (left_request w) = 0 ∧
  fst (right_request w) = -41 ∧
  eval (on_configure State.Unconfigured) w = Returned CallbackReturn.ERROR ∧
  bool_decide (handle w ∈ open_connections w) = true ∧
  bool_decide (handle w ∈ open_connections (exec (on_configure State.Unconfigured) w))
    = false ∧
  mode_of 17 (exec (on_configure State.Unconfigured) w) = Some PI_OUTPUT.
Proof. vm_compute. repeat split. Qed.

(** Nothing makes the daemon repeat its answers: an [on_configure] that
    succeeded can fail when it is called again, and then closes the
    connection. *)
Example on_configure_again_may_fail :
  let w := exec (on_init CallbackReturn.SUCCESS info_nominal)
             (World.mk hw_fresh daemon_changing_its_mind) in
  let w1 := exec (on_configure State.Unconfigured) w in
  eval (on_configure State.Unconfigured) w = Returned CallbackReturn.SUCCESS ∧
  eval (on_configure State.Inactive) w1 = Returned CallbackReturn.ERROR ∧
  bool_decide (connected w1) = true ∧
  bool_decide (connected (exec (on_configure State.Inactive) w1)) = false.
Proof. vm_compute. repeat split. Qed.

Lemma on_configure_keeps_hw (previous_state : State.t) (w : World.t) :
  World.hw (exec (on_configure previous_state) w) = World.hw w.
Proof.
  unfold exec. rewrite on_configure_run.
  repeat match goal with
         | |- context [if ?b then _ else _] => destruct b
         end; reflexivity.
Qed.

(** X10: the callbacks that follow [on_init] change nothing in the
    component itself. [on_configure], [on_activate], [on_deactivate]
    and [on_shutdown] leave [info_], [cfg_] and both wheels as they
    were; in particular [cfg_.pi] still holds the old handle after the
    connection was closed. *)
Theorem lifecycle_callbacks_keep_component (previous_state : State.t)
  (w : World.t) :
  World.hw (exec (on_configure previous_state) w) = World.hw w ∧
  World.hw (exec (on_activate previous_state) w) = World.hw w ∧
  World.hw (exec (on_deactivate previous_state) w) = World.hw w ∧
  World.hw (exec (on_shutdown previous_state) w) = World.hw w ∧
  handle (exec (on_shutdown previous_state) w) = handle w ∧
  handle (exec (on_configure previous_state) w) = handle w.
Proof.
  unfold handle. rewrite on_configure_keeps_hw.
  destruct w as [h d]. repeat split.
Qed.

(** What [on_configure] does to the set of open connections: nothing
    when it succeeds, the handle removed when it fails. *)
Lemma on_configure_open_connections (previous_state : State.t) (w : World.t) :
  open_connections (exec (on_configure previous_state) w) = open_connections w ∨
  open_connections (exec (on_configure previous_state) w)
  = open_connections w ∖ {[handle w]}.
Proof.
  pose proof (left_request_in_use w) as HL.
  pose proof (right_request_in_use w) as HR.
  unfold open_connections, exec in *. rewrite on_configure_run.
  repeat match goal with
         | |- context [if ?b then _ else _] => destruct b
         end; cbn; rewrite ?HL, ?HR; auto.
Qed.

(** X11: [on_shutdown] closes exactly the connection [on_init] opened.
    Once [pigpio_start] answered with a handle, whatever [on_init] did
    next (SUCCESS, ERROR or an exception) and whether or not
    [on_configure], [on_activate] and [on_deactivate] ran in between
    and with what result, after [on_shutdown] the open connections are
    those from before [on_init], without the handle. *)
Theorem on_shutdown_releases_on_init (base : CallbackReturn.t)
  (info : HardwareInfo.t) (w : World.t) (s1 s2 s3 s4 : State.t) :
  base = CallbackReturn.SUCCESS →
  0 <= Daemon.start_reply (World.daemon w) →
  let h := Daemon.start_reply (World.daemon w) in
  let w1 := exec (on_init base info) w in
  let w2 := exec (on_deactivate s3)
              (exec (on_activate s2) (exec (on_configure s1) w1)) in
  open_connections (exec (on_shutdown s4) w1) = open_connections w ∖ {[h]} ∧
  open_connections (exec (on_shutdown s4) w2) = open_connections w ∖ {[h]} ∧
  eval (on_shutdown s4) w1 = Returned CallbackReturn.SUCCESS ∧
  eval (on_shutdown s4) w2 = Returned CallbackReturn.SUCCESS.
Proof.
  intros Hb Hpi h w1 w2.
  destruct (on_init_daemon_handle base info w Hb) as [Hd Hh]. fold w1 in Hd, Hh.
  assert (open_connections w1 = {[h]} ∪ open_connections w) as H1.
  { unfold open_connections. rewrite Hd. unfold pigpio_start. fold h.
    destruct (0 <=? h) eqn:Hle; [reflexivity | lia]. }
  assert (∀ s v, open_connections (exec (on_shutdown s) v)
                 = open_connections v ∖ {[handle v]}) as Hsd.
  { intros s [hw d]. reflexivity. }
  assert (handle w2 = h) as Hh2.
  { unfold w2, exec, on_deactivate, on_activate. cbn.
    unfold handle. fold (exec (on_configure s1) w1).
    now rewrite on_configure_keeps_hw. }
  assert (open_connections w2 = open_connections w1 ∨
          open_connections w2 = open_connections w1 ∖ {[h]}) as H2.
  { unfold w2, exec, on_deactivate, on_activate. cbn.
    unfold h. rewrite <- Hh. apply on_configure_open_connections. }
  repeat split; try (destruct w1, w2; reflexivity).
  - rewrite Hsd, Hh, H1. set_solver.
  - rewrite Hsd, Hh2. destruct H2 as [-> | ->]; rewrite H1; set_solver.
Qed.

Lemma on_shutdown_releases_on_init_witness :
  let w := World.mk hw_fresh daemon_refusing_27 in
  let h := Daemon.start_reply (World.daemon w) in
  let w1 := exec (on_init CallbackReturn.SUCCESS info_passive_joint) w in
  let w2 := exec (on_deactivate State.Active)
              (exec (on_activate State.Inactive)
                 (exec (on_configure State.Unconfigured) w1)) in
  open_connections (exec (on_shutdown State.Inactive) w1)
    = open_connections w ∖ {[h]} ∧
  open_connections (exec (on_shutdown State.Inactive) w2)
    = open_connections w ∖ {[h]} ∧
  eval (on_shutdown State.Inactive) w1 = Returned CallbackReturn.SUCCESS ∧
  eval (on_shutdown State.Inactive) w2 = Returned CallbackReturn.SUCCESS.
Proof.
  apply (on_shutdown_releases_on_init CallbackReturn.SUCCESS info_passive_joint
           (World.mk hw_fresh daemon_refusing_27)
           State.Unconfigured State.Inactive State.Active State.Inactive).
  - reflexivity.
  - cbn. lia.
Defined.

(* ===================================================================== *)
(** * Further properties of the exported interfaces and the cycle        *)
(* ===================================================================== *)

(** X12: the four state interfaces are exported in the order left
    position, left velocity, right position, right velocity, and their
    full names are pairwise distinct exactly when the two wheels have
    different names; with equal names (as when both names are missing
    from the parameters) each name is exported twice. *)
Theorem state_interface_names_distinct (h : DiffBotSystemHardware.t) :
  state_interface_names h
  = [ (Wheel.name (DiffBotSystemHardware.wheel_left_ h), HW_IF_POSITION);
      (Wheel.name (DiffBotSystemHardware.wheel_left_ h), HW_IF_VELOCITY);
      (Wheel.name (DiffBotSystemHardware.wheel_right_ h), HW_IF_POSITION);
      (Wheel.name (DiffBotSystemHardware.wheel_right_ h), HW_IF_VELOCITY) ] ∧
  (NoDup (state_interface_names h) ↔
   Wheel.name (DiffBotSystemHardware.wheel_left_ h)
   ≠ Wheel.name (DiffBotSystemHardware.wheel_right_ h)) ∧
  (NoDup (command_interface_names h) ↔
   Wheel.name (DiffBotSystemHardware.wheel_left_ h)
   ≠ Wheel.name (DiffBotSystemHardware.wheel_right_ h)).
Proof.
  split; [reflexivity|].
  unfold state_interface_names, command_interface_names,
    export_state_interfaces, export_command_interfaces,
    HW_IF_POSITION, HW_IF_VELOCITY. cbn.
  set (l := Wheel.name (DiffBotSystemHardware.wheel_left_ h)).
  set (r := Wheel.name (DiffBotSystemHardware.wheel_right_ h)).
  split; split.
  - intros HN Heq. rewrite Heq in HN.
    apply NoDup_cons in HN as [Hnin _]. apply Hnin. set_solver.
  - intros Hne. repeat (apply NoDup_cons; split); try apply NoDup_nil_2;
      rewrite ?elem_of_cons, ?elem_of_nil; intros H;
      repeat destruct H as [H|H]; try inversion H; congruence.
  - intros HN Heq. rewrite Heq in HN.
    apply NoDup_cons in HN as [Hnin _]. apply Hnin. set_solver.
  - intros Hne. repeat (apply NoDup_cons; split); try apply NoDup_nil_2;
      rewrite ?elem_of_cons, ?elem_of_nil; intros H;
      repeat destruct H as [H|H]; try inversion H; congruence.
Qed.

(** X13: the state interfaces exported before a cycle show the values
    of that cycle: read through them after [read], the four values are
    the new position and velocity of the left wheel and of the right
    wheel, where each velocity is the new position minus the
    single-precision image of the old one, over the elapsed seconds. *)
Theorem exported_state_follows_read (time : Time.t) (period : Duration.t)
  (w : World.t) :
  let w' := exec (read time period) w in
  let vel s :=
    ((Wheel.pos (wheel s w') - Cxx.to_binary32 (Wheel.pos (wheel s w)))
     / Duration.seconds period)%float in
  state_values (export_state_interfaces (World.hw w)) w'
  = [Wheel.pos (wheel Left w'); vel Left; Wheel.pos (wheel Right w'); vel Right] ∧
  state_interface_names (World.hw w') = state_interface_names (World.hw w).
Proof.
  cbn. unfold exec. rewrite read_run. destruct w as [[i c l r] d].
  split; reflexivity.
Qed.

(** X14: commands are stored and nothing more. Writing two commands
    through the exported command interfaces sets the [cmd] of the two
    wheels and changes no state value and nothing in the daemon; a
    following [read] and [write] keep the commands as they are, and
    the state values published by that [read] are those it would have
    published without the commands. *)
Theorem commands_are_inert (time : Time.t) (period : Duration.t)
  (w : World.t) (cmd_left cmd_right : float) :
  let ifs := export_state_interfaces (World.hw w) in
  let wc := command cmd_left cmd_right w in
  let cycle v := exec (write time period) (exec (read time period) v) in
  Wheel.cmd (wheel Left wc) = cmd_left ∧
  Wheel.cmd (wheel Right wc) = cmd_right ∧
  state_values ifs wc = state_values ifs w ∧
  World.daemon wc = World.daemon w ∧
  Wheel.cmd (wheel Left (cycle wc)) = cmd_left ∧
  Wheel.cmd (wheel Right (cycle wc)) = cmd_right ∧
  state_values ifs (cycle wc) = state_values ifs (cycle w) ∧
  World.daemon (cycle wc) = World.daemon w.
Proof.
  destruct w as [[i c l r] d]. cbn. repeat split.
Qed.

(** X15: [read] never fails and stays inside the wheels: for every
    period it returns OK, and the world it leaves differs from the one
    it found in the position and velocity of the two wheels only; the
    daemon, [cfg_], [info_], and the name, tick count, command and
    resolution of each wheel are as before. *)
Theorem read_changes_only_pos_vel (time : Time.t) (period : Duration.t)
  (w : World.t) :
  eval (read time period) w = Returned return_type.OK ∧
  ∃ pl vl pr vr : float,
    exec (read time period) w =
      World.mk
        (DiffBotSystemHardware.mk
           (DiffBotSystemHardware.info_ (World.hw w))
           (DiffBotSystemHardware.cfg_ (World.hw w))
           (Wheel.set_vel vl (Wheel.set_pos pl (wheel Left w)))
           (Wheel.set_vel vr (Wheel.set_pos pr (wheel Right w))))
        (World.daemon w).
Proof.
  unfold eval, exec. rewrite read_run. split; [reflexivity|].
  cbn. unfold read_wheel. eauto.
Qed.

Lemma div_by_zero_non_finite (x : float) : non_finite (x / 0)%float.
Proof.
  unfold non_finite. rewrite div_spec.
  change (Prim2SF 0) with (S754_zero false).
  unfold SF64div, SFdiv. destruct (Prim2SF x); eauto.
Qed.

(** X16: the elapsed time is not guarded. With a period of zero
    nanoseconds [read] still returns OK, and the velocity it publishes
    for each wheel is an infinity or not a number, whatever the
    positions are. *)
Theorem read_zero_period_velocity (time : Time.t) (period : Duration.t)
  (w : World.t) (s : side) :
  Duration.nanoseconds period = 0 →
  eval (read time period) w = Returned return_type.OK ∧
  non_finite (Wheel.vel (wheel s (exec (read time period) w))).
Proof.
  intros H0. split; [unfold eval; now rewrite read_run|].
  rewrite read_velocity. destruct period as [n]. cbn in H0. subst n.
  change (Duration.seconds (Duration.mk 0)) with 0%float.
  apply div_by_zero_non_finite.
Qed.

Lemma read_zero_period_velocity_witness :
  let w := with_ticks 1000
             (exec (on_init CallbackReturn.SUCCESS info_nominal) world_fresh) in
  eval (read time0 (ms 0)) w = Returned return_type.OK ∧
  non_finite (Wheel.vel (wheel Left (exec (read time0 (ms 0)) w))).
Proof.
  apply (read_zero_period_velocity time0 (ms 0)
           (with_ticks 1000
              (exec (on_init CallbackReturn.SUCCESS info_nominal) world_fresh))
           Left).
  reflexivity.
Defined.

(* ===================================================================== *)
(** * The verdict of initialization, and what a throw leaves behind      *)
(* ===================================================================== *)

(** X17: the complete criterion. [on_init] returns SUCCESS exactly when
    the base class accepts the description, [pigpio_start] answers
    with a handle, both pins and the resolution parse, and every joint
    has the required shape; it returns ERROR exactly when the base
    class refuses, or the connection fails, or the three numbers parse
    and some joint has not the required shape. Nothing else is looked
    at: not the values of the pins or of the resolution, not the wheel
    names, not the number of joints, not the state the component was
    in. *)
Theorem on_init_verdict_iff (base : CallbackReturn.t) (info : HardwareInfo.t)
  (w : World.t) :
  (eval (on_init base info) w = Returned CallbackReturn.SUCCESS ↔
     base = CallbackReturn.SUCCESS ∧
     0 <= Daemon.start_reply (World.daemon w) ∧
     numeric_params_parse info ∧
     Forall conforms (HardwareInfo.joints info)) ∧
  (eval (on_init base info) w = Returned CallbackReturn.ERROR ↔
     base ≠ CallbackReturn.SUCCESS ∨
     Daemon.start_reply (World.daemon w) < 0 ∨
     numeric_params_parse info ∧ ¬ Forall conforms (HardwareInfo.joints info)) ∧
  eval (on_init base info) w ≠ Returned CallbackReturn.FAILURE.
Proof.
  rewrite on_init_eval. unfold on_init_verdict, numeric_params_parse.
  destruct (decide (base ≠ CallbackReturn.SUCCESS)) as [Hb|Hb].
  { intuition (try discriminate; try congruence). }
  apply dec_stable in Hb.
  destruct (Daemon.start_reply (World.daemon w) <? 0) eqn:Hneg.
  { apply Z.ltb_lt in Hneg. intuition (try discriminate; try lia). }
  apply Z.ltb_ge in Hneg.
  destruct (Cxx.stoi (param_value "left_wheel_pin" info)); cbn;
    [|intuition (try discriminate; try lia; try congruence)].
  destruct (Cxx.stoi (param_value "right_wheel_pin" info)); cbn;
    [|intuition (try discriminate; try lia; try congruence)].
  destruct (Cxx.stoul (param_value "enc_counts_per_rev" info)); cbn;
    [|intuition (try discriminate; try lia; try congruence)].
  destruct (check_joints_verdict (HardwareInfo.joints info)) as [[HF ->]|[HF ->]];
    intuition (try discriminate; try lia; try congruence).
Qed.

(** X18: when a conversion throws, the wheels have not been set up:
    both are exactly as [on_init] found them, while the connection is
    already open. *)
Theorem on_init_throw_leaves_wheels (base : CallbackReturn.t)
  (info : HardwareInfo.t) (w : World.t) (e : exception) :
  eval (on_init base info) w = Thrown e →
  wheel Left (exec (on_init base info) w) = wheel Left w ∧
  wheel Right (exec (on_init base info) w) = wheel Right w ∧
  connected (exec (on_init base info) w).
Proof.
  unfold eval, exec, connected, on_init, SystemInterface_on_init.
  destruct w as [[i c l r] d]. run.
  destruct (decide (base ≠ CallbackReturn.SUCCESS)); [discriminate|]. cbn.
  unfold pigpio_start.
  destruct (0 <=? Daemon.start_reply d) eqn:Hle; cbn.
  2:{ destruct (Daemon.start_reply d <? 0) eqn:Hlt; [discriminate | lia]. }
  destruct (Daemon.start_reply d <? 0) eqn:Hlt; [discriminate|].
  rewrite hardware_parameter_run; cbn.
  rewrite hardware_parameter_run; cbn.
  rewrite hardware_parameter_run; cbn.
  destruct (Cxx.stoi _); [|intros _; repeat split; set_solver].
  cbn. rewrite hardware_parameter_run; cbn.
  destruct (Cxx.stoi _); [|intros _; repeat split; set_solver].
  cbn. rewrite hardware_parameter_run; cbn.
  destruct (Cxx.stoul _); [discriminate | intros _; repeat split; set_solver].
Qed.

Lemma on_init_throw_leaves_wheels_witness :
  wheel Left (exec (on_init CallbackReturn.SUCCESS info_bad_pin) world_fresh)
    = wheel Left world_fresh ∧
  wheel Right (exec (on_init CallbackReturn.SUCCESS info_bad_pin) world_fresh)
    = wheel Right world_fresh ∧
  connected (exec (on_init CallbackReturn.SUCCESS info_bad_pin) world_fresh).
Proof.
  apply (on_init_throw_leaves_wheels CallbackReturn.SUCCESS info_bad_pin
           world_fresh invalid_argument).
  vm_compute. reflexivity.
Defined.

(** X19: [on_configure] on a component whose handle is not among the
    open connections of the daemon (as after [on_shutdown], or after an
    [on_configure] that failed) returns ERROR and leaves the world as
    it is: the library refuses the left [set_mode] without a request to
    the daemon, and [pigpio_stop] finds nothing to close. *)
Theorem on_configure_unconnected (previous_state : State.t) (w : World.t) :
  ¬ connected w →
  on_configure previous_state w = (Returned CallbackReturn.ERROR, w).
Proof.
  intros Hnc.
  assert (left_request w = (pigif_unconnected_pi, World.daemon w)) as Hl.
  { unfold left_request, set_mode. unfold connected in Hnc.
    fold (handle w) in Hnc. now destruct (decide (_ ∈ _)). }
  rewrite on_configure_run, Hl. cbn.
  unfold connected in Hnc. fold (handle w) in Hnc.
  rewrite pigpio_stop_not_open by assumption. now destruct w.
Qed.

Lemma on_configure_unconnected_witness :
  let w := exec (on_configure State.Unconfigured)
             (exec (on_init CallbackReturn.SUCCESS info_nominal)
                (World.mk hw_fresh daemon_refusing_27)) in
  on_configure State.Unconfigured w = (Returned CallbackReturn.ERROR, w).
Proof.
  apply (on_configure_unconnected State.Unconfigured
           (exec (on_configure State.Unconfigured)
              (exec (on_init CallbackReturn.SUCCESS info_nominal)
                 (World.mk hw_fresh daemon_refusing_27)))).
  apply (bool_decide_eq_false_1 _). vm_compute. reflexivity.
Defined.
